(** * Healthy Habit Tracker: the tip engine and the stores of routes.py

    A shallow embedding of [src/routes.py] and the properties its
    specification states of it.

    - The three tip functions ([diet_tips], [workout_tips], [sleep_tips]) are
      pure functions of the rows handed to them and are embedded as such.
    - The statements the routes send to PostgreSQL are embedded as values of
      a small statement type, run by an interpreter over an explicit
      database state ([Sql]); the Python around them is written in a monad
      of exceptions over the state of the server.

    Numbers.  The numeric columns the tip functions read hold integers
    ([Z]); Python's true division [total / count] is taken exactly, in [Q],
    so the binary rounding of the quotient is not part of this model, and
    [format_2f] rounds the exact quotient. *)

From Stdlib Require Import ZArith QArith Qabs Lia Ascii String.
From stdpp Require Import base tactics option list strings pretty sorting gmap.

Local Open Scope Z_scope.

(** ** Python values and formatting *)

Module Py.

(** [str(n)] for an [int]. *)
Definition str (n : Z) : string := pretty n.

(** [a / b] on numbers ([__truediv__]).  Python raises on [b = 0]; every
    call below divides by the number of loop iterations over a list that
    was checked to be non-empty. *)
Definition truediv (a b : Z) : Q := (inject_Z a / inject_Z b)%Q.

(** [a >= b] between an average and an integer. *)
Definition ge (a : Q) (b : Z) : bool := Qle_bool (inject_Z b) a.

(** Nearest integer of a non-negative rational, ties to the even one. *)
Definition round_half_even (q : Q) : Z :=
  let n := Qnum q in
  let d := Z.pos (Qden q) in
  let fl := n / d in
  let r2 := 2 * (n mod d) in
  if r2 <? d then fl
  else if d <? r2 then fl + 1
  else if Z.even fl then fl else fl + 1.

Definition two_digits (n : Z) : string :=
  if n <? 10 then "0" +:+ pretty n else pretty n.

(** [f"{q:.2f}"]: sign, integer part, point, two decimals. *)
Definition format_2f (q : Q) : string :=
  let h := round_half_even (Qabs q * 100)%Q in
  (if Qnum q <? 0 then "-" else "")
    +:+ pretty (h / 100) +:+ "." +:+ two_digits (h mod 100).

(** [c.isspace()] for the characters of ASCII: tab, line feed, vertical tab,
    form feed, carriage return, the four separators 28 to 31, and space.
    Strings are strings of bytes here; the white space and the digits that
    Unicode has beyond ASCII are not modelled. *)
Definition isspace (c : ascii) : bool :=
  let n := N_of_ascii c in
  ((9 <=? n) && (n <=? 13) || (28 <=? n) && (n <=? 32))%N.

Fixpoint lstrip (s : string) : string :=
  match s with
  | String c s' => if isspace c then lstrip s' else s
  | EmptyString => EmptyString
  end.

(** [s.strip()] *)
Definition strip (s : string) : string :=
  String.rev (lstrip (String.rev (lstrip s))).

Definition lower_char (c : ascii) : ascii :=
  let n := N_of_ascii c in
  if ((65 <=? n) && (n <=? 90))%N then ascii_of_N (n + 32) else c.

(** [s.lower()] *)
Fixpoint lower (s : string) : string :=
  match s with
  | String c s' => String (lower_char c) (lower s')
  | EmptyString => EmptyString
  end.

Definition digit (c : ascii) : option Z :=
  let n := N_of_ascii c in
  if ((48 <=? n) && (n <=? 57))%N then Some (Z.of_N n - 48) else None.

(** The digits of an integer literal, read left to right: an underscore may
    stand between two digits, nowhere else.  [after_digit] tells whether the
    character before was a digit. *)
Fixpoint int_digits (after_digit : bool) (acc : Z) (s : string) : option Z :=
  match s with
  | EmptyString => if after_digit then Some acc else None
  | String c s' =>
      match digit c with
      | Some d => int_digits true (10 * acc + d) s'
      | None =>
          if Ascii.eqb c "_" && after_digit then int_digits false acc s'
          else None
      end
  end.

(** [int(s)] for a [str]; [None] stands for [ValueError].  White space
    around the literal is dropped, one sign may lead it.  (The interpreter's
    limit on the number of digits is not modelled.) *)
Definition int (s : string) : option Z :=
  match strip s with
  | String "+" t => int_digits false 0 t
  | String "-" t => Z.opp <$> int_digits false 0 t
  | t => int_digits false 0 t
  end.

End Py.

(** ** The rows the tip functions read

    [get_data] and [get_goal_data] hand the tip functions the tuples of
    [SELECT *]; the functions read them by position.  The positions are those
    of the columns named in the [INSERT] statements of the routes, after the
    serial key in position 0.  A row is a record with one field for each
    position; the columns the functions add up and compare are numbers. *)

(** habits.diet: 0 key, 1 diet_name, 2 diet_date, 3 diet_log,
    4 diet_rating, 5 user_detail_id. *)
Record diet_row := DietRow {
  diet_id : Z; diet_name : string; diet_date : Z; diet_log : string;
  diet_rating : Z; diet_user : Z }.

(** habits.workout: 0 key, 1 workout_name, 2 workout_date,
    3 workout_duration, 4 workout_intensity, 5 workout_type, 6 workout_log,
    7 workout_rating, 8 user_detail_id. *)
Record workout_row := WorkoutRow {
  workout_id : Z; workout_name : string; workout_date : Z;
  workout_duration : Z; workout_intensity : Z; workout_type : string;
  workout_log : string; workout_rating : Z; workout_user : Z }.

(** habits.sleep: 0 key, 1 sleep_duration, 2 sleep_date, 3 sleep_log,
    4 sleep_rating, 5 user_detail_id. *)
Record sleep_row := SleepRow {
  sleep_id : Z; sleep_duration : Z; sleep_date : Z; sleep_log : string;
  sleep_rating : Z; sleep_user : Z }.

(** habits.goals: 0 key, 1 sleep_len_goal, 2 better_sleep, 3 intensity,
    4 diet, 5 user_detail_id. *)
Record goals_row := GoalsRow {
  goals_id : Z; sleep_len_goal : Z; better_sleep : Z; intensity : Z;
  diet : Z; goals_user : Z }.

(** ** The tip messages *)

Module Msg.

Definition not_enough : string := "Not enough data yet...".

(** diet_tips *)
Definition diet_avg_meets (avg : string) : string :=
  "Your Average (" +:+ avg +:+ ") currently meets or is passing your goal!".
Definition diet_avg_below (avg : string) : string :=
  "Your Average (" +:+ avg +:+ ") is currently below your goal!".
Definition diet_newest_above (newest : string) : string :=
  "Your newest (" +:+ newest +:+ ") is above your goal! Keep it up!".
Definition diet_newest_below (newest : string) : string :=
  "Your newest (" +:+ newest
    +:+ ") is below your goal! Don't let this become a trend.".

(** workout_tips *)
Definition work_avg_meets (avg : string) : string :=
  "Your Average intensity (" +:+ avg
    +:+ ") currently meets or is passing your goal!".
Definition work_avg_below (avg : string) : string :=
  "Your Average intensity (" +:+ avg +:+ ") is currently below your goal!".
Definition work_more_weight : string :=
  "If you're using weights, try increasing the weight or amount of reps.".
Definition work_newest_meets (newest : string) : string :=
  "Your most recent intensity (" +:+ newest
    +:+ ") meets or is above your goal!".
Definition work_too_intense : string :=
  "Try not to go too intense too often; it's okay to take a break occasionally.".
Definition work_newest_below (newest : string) : string :=
  "Your newest (" +:+ newest +:+ ") is below your goal!".
Definition work_break : string :=
  "If you're taking a break that's okay, but try to increase the intensity when you're ready.".

(** sleep_tips *)
Definition sleep_len_avg_meets (avg : string) : string :=
  "Your Average length of sleep (" +:+ avg
    +:+ ") currently meets or is passing your goal!".
Definition sleep_len_avg_below (avg : string) : string :=
  "Your Average length of sleep (" +:+ avg
    +:+ ") is currently below your goal!".
Definition sleep_len_newest_above (newest : string) : string :=
  "Your newest length of sleep (" +:+ newest
    +:+ ") is above your goal! Keep it up!".
Definition sleep_len_newest_below (newest : string) : string :=
  "Your newest length of sleep (" +:+ newest
    +:+ ") is below your goal! Don't let this become a trend.".
Definition sleep_qual_avg_above (avg : string) : string :=
  "Your average quality of sleep(" +:+ avg
    +:+ ") is above your goal! Keep it up!".
Definition sleep_qual_avg_below (avg : string) : string :=
  "Your average quality of sleep (" +:+ avg
    +:+ ") is currently below your goal!".
Definition sleep_screens : string :=
  "For better sleep quality, try not to use any screens for at least an hour before bed.".
Definition sleep_qual_newest_meets (newest : string) : string :=
  "Your most recent sleep (" +:+ newest +:+ ") meets or is above your goal!".
Definition sleep_qual_newest_below (newest : string) : string :=
  "Your most recent sleep (" +:+ newest +:+ ") is below your goal!".

End Msg.

(** ** The tip functions *)

(** The [for] loop of [diet_tips]: [diet_avg += diet[4]; diets += 1]. *)
Definition diet_loop (diet_data : list diet_row) : Z * Z :=
  foldl (λ '(diet_avg, diets) diet, (diet_avg + diet_rating diet, diets + 1))
        (0, 0) diet_data.

Definition diet_tips (diet_data : list diet_row) (goal_data : list goals_row)
  : list string :=
  match diet_data, goal_data with
  | d0 :: _, g0 :: _ =>
      let newest := diet_rating d0 in
      let goal := diet g0 in
      let '(diet_sum, diets) := diet_loop diet_data in
      let diet_avg := Py.truediv diet_sum diets in
      (if Py.ge diet_avg goal
       then [Msg.diet_avg_meets (Py.format_2f diet_avg)]
       else [Msg.diet_avg_below (Py.format_2f diet_avg)])
      ++ (if newest >=? goal
          then [Msg.diet_newest_above (Py.str newest)]
          else [Msg.diet_newest_below (Py.str newest)])
  | _, _ => [Msg.not_enough]
  end.

(** The [for] loop of [workout_tips]. *)
Definition work_loop (work_data : list workout_row) : Z * Z :=
  foldl (λ '(work_avg, works) work,
           (work_avg + workout_intensity work, works + 1))
        (0, 0) work_data.

Definition workout_tips (work_data : list workout_row)
    (goal_data : list goals_row) : list string :=
  match work_data, goal_data with
  | w0 :: _, g0 :: _ =>
      let newest := workout_intensity w0 in
      let goal := intensity g0 in
      let '(work_sum, works) := work_loop work_data in
      let work_avg := Py.truediv work_sum works in
      (if Py.ge work_avg goal
       then [Msg.work_avg_meets (Py.format_2f work_avg)]
       else [Msg.work_avg_below (Py.format_2f work_avg);
             Msg.work_more_weight])
      ++ (if newest >=? goal
          then Msg.work_newest_meets (Py.str newest)
               :: (if newest >=? 8 then [Msg.work_too_intense] else [])
          else [Msg.work_newest_below (Py.str newest); Msg.work_break])
  | _, _ => [Msg.not_enough]
  end.

(** The [for] loop of [sleep_tips]: two sums and the count. *)
Definition sleep_loop (sleep_data : list sleep_row) : Z * Z * Z :=
  foldl (λ '(sleep_len_avg, sleep_qual_avg, sleeps) sleep,
           (sleep_len_avg + sleep_duration sleep,
            sleep_qual_avg + sleep_rating sleep,
            sleeps + 1))
        (0, 0, 0) sleep_data.

Definition sleep_tips (sleep_data : list sleep_row)
    (goal_data : list goals_row) : list string :=
  match sleep_data, goal_data with
  | s0 :: _, g0 :: _ =>
      let newest_len := sleep_duration s0 in
      let newest_qual := sleep_rating s0 in
      let goal_len := sleep_len_goal g0 in
      let goal_qual := better_sleep g0 in
      let '(len_sum, qual_sum, sleeps) := sleep_loop sleep_data in
      let sleep_len_avg := Py.truediv len_sum sleeps in
      let sleep_qual_avg := Py.truediv qual_sum sleeps in
      (if Py.ge sleep_len_avg goal_len
       then [Msg.sleep_len_avg_meets (Py.format_2f sleep_len_avg)]
       else [Msg.sleep_len_avg_below (Py.format_2f sleep_len_avg)])
      ++ (if newest_len >=? goal_len
          then [Msg.sleep_len_newest_above (Py.str newest_len)]
          else [Msg.sleep_len_newest_below (Py.str newest_len)])
      ++ (if Py.ge sleep_qual_avg goal_qual
          then [Msg.sleep_qual_avg_above (Py.format_2f sleep_qual_avg)]
          else [Msg.sleep_qual_avg_below (Py.format_2f sleep_qual_avg);
                Msg.sleep_screens])
      ++ (if newest_qual >=? goal_qual
          then [Msg.sleep_qual_newest_meets (Py.str newest_qual)]
          else [Msg.sleep_qual_newest_below (Py.str newest_qual)])
  | _, _ => [Msg.not_enough]
  end.

(** The arithmetic mean of a list of integers. *)
Definition zsum (xs : list Z) : Z := foldr Z.add 0 xs.

Definition mean (xs : list Z) : Q :=
  (inject_Z (zsum xs) / inject_Z (Z.of_nat (length xs)))%Q.


(** ** What the tip functions return *)

(** [tips] holds a message built by [msg], whatever number is printed in it. *)
Definition emits (msg : string → string) (tips : list string) : Prop :=
  ∃ f, msg f ∈ tips.

(** The verdict on an average [avg] against [goal] in the list [tips]: the
    [meets] message is there exactly when [avg >= goal], the [below] message
    exactly when not, and the one that is there prints [avg]. *)
Definition average_verdict (meets below : string → string)
    (avg : Q) (goal : Z) (tips : list string) : Prop :=
  (emits meets tips ↔ (inject_Z goal <= avg)%Q)
  ∧ (emits below tips ↔ ¬ (inject_Z goal <= avg)%Q)
  ∧ ((inject_Z goal <= avg)%Q → meets (Py.format_2f avg) ∈ tips)
  ∧ (¬ (inject_Z goal <= avg)%Q → below (Py.format_2f avg) ∈ tips).


(** ** The database

    The routes talk to PostgreSQL through psycopg2.  A statement the source
    sends is embedded as a value of [select] or [insert]; [exec_select] and
    [exec_insert] give it the meaning it has on the server.

    Not modelled: the server's conversion of a text parameter to the type of
    its column (a parameter is a [value] and is stored and compared as
    bound), the collation of text (text is ordered by character code), and
    the order of rows that compare equal under ORDER BY (the sort of the
    model is one of the orders the server may return). *)

Module Sql.

(** What psycopg2 hands to and takes from Python: [None], [int], [str], and
    a date or timestamp (as a number). *)
Inductive value :=
  | VNull
  | VInt (n : Z)
  | VText (s : string)
  | VTime (t : Z).

#[export] Instance value_eq_dec : EqDecision value.
Proof. solve_decision. Defined.

#[export] Instance value_inhabited : Inhabited value := populate VNull.

Abbreviation tuple := (list value).

(** What a column gets when the INSERT does not name it. *)
Inductive column_default :=
  | DNull            (* no default *)
  | DSerial          (* the next value of the table's key sequence *)
  | DNow.            (* now() *)

#[export] Instance column_default_eq_dec : EqDecision column_default.
Proof. solve_decision. Defined.

Record column := Column {
  col_name : string;
  col_default : column_default;
  col_unique : bool }.

Record table := Table {
  columns : list column;
  rows : list tuple;
  next_key : Z }.

(** The schema [habits] and the server's clock. *)
Record database := Database {
  tables : gmap string table;
  now : Z }.

Inductive error :=
  | UndefinedTable (name : string)
  | UndefinedColumn (name : string)
  | UniqueViolation (name : string)
  | InvalidColumnReference (name : string)   (* ON CONFLICT without a constraint *)
  | InvalidRowCount                          (* a negative LIMIT *)
  | OperationalError.                        (* no connection *)

Inductive result (A : Type) :=
  | Ok (a : A)
  | Fail (e : error).
Arguments Ok {A} a.
Arguments Fail {A} e.

#[export] Instance result_ret : MRet result := @Ok.
#[export] Instance result_bind : MBind result := λ A B f m,
  match m with Ok a => f a | Fail e => Fail e end.
#[export] Instance result_fmap : FMap result := λ A B f m,
  match m with Ok a => Ok (f a) | Fail e => Fail e end.

Definition or_fail {A} (e : error) (o : option A) : result A :=
  match o with Some a => Ok a | None => Fail e end.

(** *** Statements *)

Inductive expr :=
  | Col (c : string)                    (* c *)
  | Coalesce (c : string) (d : value)   (* COALESCE(c, d) *)
  | Const (v : value).                  (* a literal *)

Inductive projection :=
  | Star
  | Exprs (es : list expr).

Inductive direction := Asc | Desc.

(** SELECT [sel_what] FROM habits.[sel_from] WHERE [c] = [v]
    [ORDER BY c dir] [LIMIT n]. *)
Record select := Select {
  sel_what : projection;
  sel_from : string;
  sel_where : string * value;
  sel_order : option (string * direction);
  sel_limit : option Z }.

(** INSERT INTO habits.[ins_into] (c1, ..) VALUES (v1, ..)
    [ON CONFLICT (c) DO UPDATE SET c' = EXCLUDED.c', ..]. *)
Record insert := Insert {
  ins_into : string;
  ins_values : list (string * value);
  ins_on_conflict : option (string * list string) }.

Inductive statement :=
  | Query (q : select)
  | Command (c : insert).

(** *** Comparison *)

(** [a = b] in a WHERE clause or a constraint: never true of NULL. *)
Definition sql_eq (a b : value) : bool :=
  match a, b with
  | VNull, _ | _, VNull => false
  | _, _ => bool_decide (a = b)
  end.

(** The order of ORDER BY: NULL after every value; values of one type by
    their own order.  A column holds values of one type; the order between
    types only makes the relation total. *)
Definition value_leb (a b : value) : bool :=
  match a, b with
  | _, VNull => true
  | VNull, _ => false
  | VInt m, VInt n => m <=? n
  | VInt _, _ => true
  | _, VInt _ => false
  | VText s, VText t => String.leb s t
  | VText _, _ => true
  | _, VText _ => false
  | VTime s, VTime t => s <=? t
  end.

Definition value_le (a b : value) : Prop := value_leb a b = true.

(** *** Reading a table *)

Definition col_index (t : table) (c : string) : option nat :=
  fst <$> list_find (λ col, col_name col = c) (columns t).

Definition column_of (t : table) (c : string) : result nat :=
  or_fail (UndefinedColumn c) (col_index t c).

Definition table_of (db : database) (name : string) : result table :=
  or_fail (UndefinedTable name) (tables db !! name).

(** The field of row [r] in position [i]. *)
Definition field (i : nat) (r : tuple) : value := r !!! i.

(** COALESCE(v, d) *)
Definition coalesce (v d : value) : value :=
  match v with VNull => d | _ => v end.

Definition eval_expr (t : table) (e : expr) : result (tuple → value) :=
  match e with
  | Col c => i ← column_of t c; Ok (field i)
  | Coalesce c d => i ← column_of t c; Ok (λ r, coalesce (field i r) d)
  | Const v => Ok (λ _, v)
  end.

Fixpoint eval_exprs (t : table) (es : list expr)
  : result (list (tuple → value)) :=
  match es with
  | [] => Ok []
  | e :: es => f ← eval_expr t e; fs ← eval_exprs t es; Ok (f :: fs)
  end.

Definition eval_projection (t : table) (p : projection)
  : result (tuple → tuple) :=
  match p with
  | Star => Ok (λ r : tuple, r)
  | Exprs es =>
      fs ← eval_exprs t es;
      Ok (λ r : tuple, fmap (M := list) (λ f : tuple → value, f r) fs)
  end.

(** [r1] may come before [r2] under ORDER BY on the column in position [i]. *)
Definition row_le (dir : direction) (i : nat) (r1 r2 : tuple) : Prop :=
  match dir with
  | Asc => value_le (field i r1) (field i r2)
  | Desc => value_le (field i r2) (field i r1)
  end.

#[export] Instance row_le_dec dir i : RelDecision (row_le dir i).
Proof. intros r1 r2. destruct dir; unfold row_le, value_le; apply _. Defined.

Definition order_by (t : table) (o : option (string * direction))
    (rs : list tuple) : result (list tuple) :=
  match o with
  | None => Ok rs
  | Some (c, dir) => i ← column_of t c; Ok (merge_sort (row_le dir i) rs)
  end.

Definition limit (n : option Z) (rs : list tuple) : result (list tuple) :=
  match n with
  | None => Ok rs
  | Some n => if n <? 0 then Fail InvalidRowCount else Ok (take (Z.to_nat n) rs)
  end.

(** The rows of [t] the query selects, ordered, cut, and projected. *)
Definition select_rows (t : table) (q : select) : result (list tuple) :=
  i ← column_of t (fst (sel_where q));
  let selected :=
    filter (λ r, sql_eq (field i r) (snd (sel_where q)) = true) (rows t) in
  proj ← eval_projection t (sel_what q);
  ordered ← order_by t (sel_order q) selected;
  limited ← limit (sel_limit q) ordered;
  Ok (fmap (M := list) proj limited).

Definition exec_select (db : database) (q : select) : result (list tuple) :=
  t ← table_of db (sel_from q);
  select_rows t q.

(** *** Writing a table *)

Definition default_value (t : table) (db : database) (d : column_default) : value :=
  match d with
  | DNull => VNull
  | DSerial => VInt (next_key t)
  | DNow => VTime (now db)
  end.

Definition assigned (c : string) (vs : list (string * value)) : option value :=
  (λ found, found.2.2) <$> list_find (λ cv, cv.1 = c) vs.

(** The row the INSERT proposes: the value given for a column, or else the
    column's default. *)
Definition proposed_row (t : table) (db : database)
    (vs : list (string * value)) : tuple :=
  (λ col, default (default_value t db (col_default col))
                  (assigned (col_name col) vs)) <$> columns t.

(** The first column the INSERT names that the table does not have. *)
Definition unknown_column (t : table) (cs : list string) : option string :=
  snd <$> list_find (λ c, col_index t c = None) cs.

(** The first unique column on which [r] collides with a stored row. *)
Definition violated (t : table) (r : tuple) : option string :=
  (λ found, col_name found.2.2) <$>
    list_find (λ ic : nat * column,
                 col_unique ic.2 = true
                 ∧ Exists (λ old, sql_eq (field ic.1 old) (field ic.1 r) = true)
                          (rows t))
              (imap (λ i col, (i, col)) (columns t)).

(** DO UPDATE SET c = EXCLUDED.c for the columns [cs]: the other fields of
    the stored row stay. *)
Definition update_row (t : table) (cs : list string) (excluded old : tuple)
  : tuple :=
  zip_with (λ col '(new, cur),
              if bool_decide (col_name col ∈ cs) then new else cur)
           (columns t) (zip excluded old).

(** A plain INSERT stores the row unless a unique constraint forbids it. *)
Definition insert_row (t : table) (new : tuple) : result (list tuple) :=
  match violated t new with
  | Some name => Fail (UniqueViolation name)
  | None => Ok (rows t ++ [new])
  end.

(** ON CONFLICT ([arbiter]) DO UPDATE SET [cs]: the stored row that has the
    proposed row's value in the arbiter column is updated in place; without
    such a row, the proposed row is inserted. *)
Definition upsert_row (t : table) (arbiter : string) (cs : list string)
    (new : tuple) : result (list tuple) :=
  i ← column_of t arbiter;
  match columns t !! i with
  | Some col =>
      if col_unique col then
        match unknown_column t cs with
        | Some name => Fail (UndefinedColumn name)
        | None =>
            match list_find (λ old, sql_eq (field i old) (field i new) = true)
                            (rows t) with
            | Some (j, old) => Ok (<[j := update_row t cs new old]> (rows t))
            | None => insert_row t new
            end
        end
      else Fail (InvalidColumnReference arbiter)
  | None => Fail (UndefinedColumn arbiter)
  end.

(** The key sequence after an INSERT: it moves on whether or not the
    proposed row is stored. *)
Definition advance_key (t : table) : Z :=
  if bool_decide (Exists (λ col, col_default col = DSerial) (columns t))
  then next_key t + 1 else next_key t.

Definition exec_insert (db : database) (c : insert) : result database :=
  t ← table_of db (ins_into c);
  match unknown_column t (ins_values c).*1 with
  | Some name => Fail (UndefinedColumn name)
  | None =>
      let new := proposed_row t db (ins_values c) in
      rows' ← match ins_on_conflict c with
              | None => insert_row t new
              | Some (arbiter, cs) => upsert_row t arbiter cs new
              end;
      Ok (Database
            (<[ins_into c := Table (columns t) rows' (advance_key t)]>
               (tables db))
            (now db))
  end.

Definition exec (db : database) (st : statement)
  : result (database * list tuple) :=
  match st with
  | Query q => rs ← exec_select db q; Ok (db, rs)
  | Command c => db' ← exec_insert db c; Ok (db', [])
  end.

End Sql.

(** ** Python around the statements: exceptions and the server's state *)

Import Sql.

Inductive exn :=
  | Psycopg2Error (e : error)          (* psycopg2.Error and its subclasses *)
  | ValueError
  | BadRequestKeyError (key : string). (* request.form[key], key missing *)

(** The database server: whether it accepts connections, and the committed
    data. *)
Record server := Server {
  accepting : bool;
  committed : database }.

Inductive outcome (A : Type) :=
  | Return (a : A)
  | Raise (e : exn).
Arguments Return {A} a.
Arguments Raise {A} e.

(** A Python computation: it returns or raises, and leaves a server state. *)
Definition py (A : Type) : Type := server → outcome A * server.

#[export] Instance py_ret : MRet py := λ A a s, (Return a, s).
#[export] Instance py_bind : MBind py := λ A B f m s,
  match m s with
  | (Return a, s') => f a s'
  | (Raise e, s') => (Raise e, s')
  end.

Definition raise {A} (e : exn) : py A := λ s, (Raise e, s).

(** [try: body except psycopg2.Error: handler] *)
Definition try_except_psycopg2 {A} (body : py A) (handler : error → py A)
  : py A :=
  λ s, match body s with
       | (Raise (Psycopg2Error e), s') => handler e s'
       | r => r
       end.

(** [try: body except ValueError: handler] *)
Definition try_except_value_error {A} (body : py A) (handler : py A) : py A :=
  λ s, match body s with
       | (Raise ValueError, s') => handler s'
       | r => r
       end.

(** [try: body finally: final]: [final] runs on every way out of [body]. *)
Definition try_finally {A} (body : py A) (final : py unit) : py A :=
  λ s, match body s with
       | (r, s') =>
           match final s' with
           | (Return _, s'') => (r, s'')
           | (Raise e, s'') => (Raise e, s'')
           end
       end.

(** *** psycopg2 *)

(** An open connection: the data as its transaction sees it. *)
Record connection := Connection { working : database }.

(** [get_db_connection()]: [psycopg2.connect] raises when the server cannot
    be reached. *)
Definition get_db_connection : py connection :=
  λ s, if accepting s then (Return (Connection (committed s)), s)
       else (Raise (Psycopg2Error OperationalError), s).

(** [cur = conn.cursor(); cur.execute(st, params)]: the cursor is the result
    set. *)
Definition execute (conn : connection) (st : statement)
  : py (connection * list tuple) :=
  λ s, match exec (working conn) st with
       | Ok (db, cur) => (Return (Connection db, cur), s)
       | Fail e => (Raise (Psycopg2Error e), s)
       end.

Definition fetchall (cur : list tuple) : list tuple := cur.

Definition fetchone (cur : list tuple) : option tuple := head cur.

Definition commit (conn : connection) : py unit :=
  λ s, (Return (), Server (accepting s) (working conn)).

(** [cur.close(); conn.close()]: what was not committed is dropped. *)
Definition close (conn : connection) : py unit := mret ().

(** A Python [str] or [None] bound to a statement parameter. *)
Definition param (o : option string) : value := from_option VText VNull o.

(** *** Flask *)

(** [current_user]: the id and the user name looked up for it. *)
Record user := User {
  id : value;
  username : option string }.

Record request := Request {
  method : string;
  form : gmap string string }.

(** [request.form.get(key)] *)
Definition form_get (req : request) (key : string) : option string :=
  form req !! key.

(** [request.form[key]] *)
Definition form_item (req : request) (key : string) : py string :=
  match form req !! key with
  | Some v => mret v
  | None => raise (BadRequestKeyError key)
  end.

Inductive context_value :=
  | CStr (s : option string)
  | CRows (rs : list tuple).

Inductive response :=
  | Redirect (location : string)
  | RenderTemplate (name : string) (context : list (string * context_value)).

(** *** The accessors *)

(** The query of [get_data]:
    SELECT * FROM habits.{table_name} WHERE user_detail_id = %s
    ORDER BY {table_name}_date DESC *)
Definition data_query (current_user : user) (table_name : string) : select :=
  Select Star table_name ("user_detail_id", id current_user)
         (Some (table_name +:+ "_date", Desc)) None.

(** [get_data(table_name)] *)
Definition get_data (current_user : user) (table_name : string)
  : py (list tuple) :=
  conn ← get_db_connection;
  let query := data_query current_user table_name in
  try_finally
    (try_except_psycopg2
       ('(_, cur) ← execute conn (Query query);
        let rows := fetchall cur in
        mret rows)
       (λ e, mret []))
    (close conn).

(** The query of [_get_feedback_for_user]:
    SELECT feedback_id, feedback_type, feedback_page, feedback_message,
           COALESCE(feedback_rating, 0), contact_email, created_at
    FROM habits.feedback WHERE user_detail_id = %s
    ORDER BY created_at DESC LIMIT %s *)
Definition feedback_query (current_user : user) (limit : Z) : select :=
  Select (Exprs [Col "feedback_id"; Col "feedback_type";
                 Col "feedback_page"; Col "feedback_message";
                 Coalesce "feedback_rating" (VInt 0);
                 Col "contact_email"; Col "created_at"])
         "feedback" ("user_detail_id", id current_user)
         (Some ("created_at", Desc)) (Some limit).

(** [_get_feedback_for_user(limit=20)] *)
Definition _get_feedback_for_user (current_user : user) (limit : Z)
  : py (list tuple) :=
  conn ← get_db_connection;
  '(_, cur) ← execute conn (Query (feedback_query current_user limit));
  let rows := fetchall cur in
  close conn;;
  mret rows.

(** The query of [get_chart_data]:
    SELECT {date_column}, {value_column} FROM habits.{table_name}
    WHERE user_detail_id = %s ORDER BY {date_column} *)
Definition chart_query (current_user : user)
    (table_name date_column value_column : string) : select :=
  Select (Exprs [Col date_column; Col value_column]) table_name
         ("user_detail_id", id current_user)
         (Some (date_column, Asc)) None.

(** [get_chart_data(table_name, date_column, value_column)] *)
Definition get_chart_data (current_user : user)
    (table_name date_column value_column : string) : py (list tuple) :=
  conn ← get_db_connection;
  let query :=
    chart_query current_user table_name date_column value_column in
  try_finally
    (try_except_psycopg2
       ('(_, cur) ← execute conn (Query query);
        let rows := fetchall cur in
        mret rows)
       (λ e, mret []))
    (close conn).

(** [get_goal_data()] *)
Definition get_goal_data (current_user : user) : py (list tuple) :=
  conn ← get_db_connection;
  let query :=
    Select Star "goals" ("user_detail_id", id current_user) None None in
  try_finally
    (try_except_psycopg2
       ('(_, cur) ← execute conn (Query query);
        let rows := fetchall cur in
        mret rows)
       (λ e, mret []))
    (close conn).

(** *** The routes *)

Section routes.

(** [werkzeug.security.generate_password_hash(password, method='pbkdf2:sha256')] *)
Context (generate_password_hash : string → string).

(** [register()], route /register *)
Definition register (req : request) : py response :=
  if bool_decide (method req = "POST") then
    username ← form_item req "username";
    password ← form_item req "password";
    let password_hash := generate_password_hash password in
    conn ← get_db_connection;
    '(conn, cur) ← execute conn (Query
      (Select (Exprs [Const (VInt 1)]) "user_detail"
              ("user_detail_username", VText username) None None));
    let existing_user := fetchone cur in
    if bool_decide (is_Some existing_user) then
      close conn;;
      mret (RenderTemplate "signup.html"
              [("error", CStr (Some "Username taken!"))])
    else
      '(conn, _) ← execute conn (Command
        (Insert "user_detail"
                [("user_detail_username", VText username);
                 ("user_detail_password", VText password_hash)]
                None));
      commit conn;;
      close conn;;
      mret (Redirect "/login")
  else mret (RenderTemplate "signup.html" []).

End routes.

(** [goals()], route /goals (behind [@login_required]) *)
Definition goals (current_user : user) (req : request) : py response :=
  (if bool_decide (method req = "POST") then
     let moresleep := form_get req "duration" in
     let bettersleep := form_get req "quality" in
     let intensity := form_get req "intense" in
     let diet := form_get req "diet" in
     let user_id := id current_user in
     conn ← get_db_connection;
     '(conn, _) ← execute conn (Command
       (Insert "goals"
               [("sleep_len_goal", param moresleep);
                ("better_sleep", param bettersleep);
                ("intensity", param intensity);
                ("diet", param diet);
                ("user_detail_id", user_id)]
               (Some ("user_detail_id",
                      ["sleep_len_goal"; "better_sleep"; "intensity";
                       "diet"]))));
     commit conn;;
     close conn
   else mret ());;
  mret (RenderTemplate "goals.html" [("user", CStr (username current_user))]).

(** The "safe rating coercion" of [feedback()]. *)
Definition rating_coercion (rating : option string) : py (option Z) :=
  try_except_value_error
    (r_val ← match rating with
             | Some s =>
                 if bool_decide (s = "") then mret None
                 else match Py.int s with
                      | Some n => mret (Some n)
                      | None => raise ValueError
                      end
             | None => mret None
             end;
     mret (match r_val with
           | Some n => if (1 <=? n) && (n <=? 5) then Some n else None
           | None => None
           end))
    (mret None).

(** [feedback()], route /feedback (behind [@login_required]) *)
Definition feedback (current_user : user) (req : request) : py response :=
  if bool_decide (method req = "POST") then
    let ftype := Py.lower (Py.strip (default "" (form_get req "type"))) in
    let fpage := Py.lower (Py.strip (default "" (form_get req "page"))) in
    let msg := Py.strip (default "" (form_get req "message")) in
    let rating := form_get req "rating" in
    let email := Py.strip (default "" (form_get req "email")) in
    r_val ← rating_coercion rating;
    conn ← get_db_connection;
    '(conn, _) ← execute conn (Command
      (Insert "feedback"
              [("user_detail_id", id current_user);
               ("feedback_type", VText ftype);
               ("feedback_page", VText fpage);
               ("feedback_message", VText msg);
               ("feedback_rating", from_option VInt VNull r_val);
               ("contact_email",
                if bool_decide (email = "") then VNull else VText email)]
              None));
    commit conn;;
    close conn;;
    mret (Redirect "/feedback")
  else
    fb_rows ← _get_feedback_for_user current_user 20;
    mret (RenderTemplate "feedback.html"
            [("user", CStr (username current_user));
             ("feedback_data", CRows fb_rows)]).

(** ** Notions the properties are stated with *)

(** The row [r] with a NULL in position [ir] replaced by 0. *)
Definition zero_rating (ir : nat) (r : tuple) : tuple :=
  <[ir := coalesce (field ir r) (VInt 0)]> r.

(** The database in which every feedback row stored without a rating is
    stored with the rating 0 instead. *)
Definition ratings_zeroed (db : database) : database :=
  match tables db !! "feedback" with
  | Some t =>
      match col_index t "feedback_rating" with
      | Some ir =>
          Database
            (<["feedback" :=
                 Table (columns t) (zero_rating ir <$> rows t) (next_key t)]>
               (tables db))
            (now db)
      | None => db
      end
  | None => db
  end.

(** The table has every column of [cs]. *)
Definition has_columns (t : table) (cs : list string) : Prop :=
  Forall (λ c, is_Some (col_index t c)) cs.

(** The columns the feedback listing reads. *)
Definition feedback_listing_columns : list string :=
  ["feedback_id"; "feedback_type"; "feedback_page"; "feedback_message";
   "feedback_rating"; "contact_email"; "created_at"; "user_detail_id"].

(** The columns the INSERT of [feedback] names. *)
Definition feedback_insert_columns : list string :=
  ["user_detail_id"; "feedback_type"; "feedback_page"; "feedback_message";
   "feedback_rating"; "contact_email"].

(** The rating a form field stands for: the integer it spells, if it spells
    one and that is in 1..5. *)
Definition valid_rating (rating : option string) : option Z :=
  match rating with
  | Some s =>
      match Py.int s with
      | Some n => if (1 <=? n) && (n <=? 5) then Some n else None
      | None => None
      end
  | None => None
  end.

(** The columns the upsert of [goals] names, and those it sets on a
    conflict. *)
Definition goals_columns : list string :=
  ["sleep_len_goal"; "better_sleep"; "intensity"; "diet"; "user_detail_id"].

Definition goals_set_columns : list string :=
  ["sleep_len_goal"; "better_sleep"; "intensity"; "diet"].

(** No two rows of [rs] have the same value (not NULL) in position [i]: a
    unique constraint on that column holds. *)
Definition unique_in (i : nat) (rs : list tuple) : Prop :=
  ∀ j1 j2 r1 r2,
    rs !! j1 = Some r1 → rs !! j2 = Some r2 →
    sql_eq (field i r1) (field i r2) = true → j1 = j2.

(** habits.goals as the upsert needs it: the table has the columns named,
    its one unique constraint is on [user_detail_id] (in position [iu]) and
    holds, and every row has a field for every column. *)
Record goals_table_ok (t : table) (iu : nat) : Prop := GoalsTableOk {
  goals_has_columns : has_columns t goals_columns;
  goals_user_column : col_index t "user_detail_id" = Some iu;
  goals_unique_column :
    ∀ j col, columns t !! j = Some col → (col_unique col = true ↔ j = iu);
  goals_rows_length : Forall (λ r, length r = length (columns t)) (rows t);
  goals_rows_unique : unique_in iu (rows t) }.

(** The rows after ON CONFLICT (column [i]) DO UPDATE SET [cs], when the
    statement is accepted. *)
Definition upserted (t : table) (i : nat) (cs : list string) (new : tuple)
  : list tuple :=
  match list_find (λ old, sql_eq (field i old) (field i new) = true)
                  (rows t) with
  | Some (j, old) => <[j := update_row t cs new old]> (rows t)
  | None => rows t ++ [new]
  end.

(** The row [r] of habits.goals holds the four goals submitted in [req]. *)
Definition stores_goal (t : table) (req : request) (r : tuple) : Prop :=
  (∀ i, col_index t "sleep_len_goal" = Some i →
        field i r = param (form_get req "duration"))
  ∧ (∀ i, col_index t "better_sleep" = Some i →
          field i r = param (form_get req "quality"))
  ∧ (∀ i, col_index t "intensity" = Some i →
          field i r = param (form_get req "intense"))
  ∧ (∀ i, col_index t "diet" = Some i →
          field i r = param (form_get req "diet")).

(** ** A database to run the routes on *)

(** Modelled from the spec: the tables of the schema [habits]; their
    declarations are not among the sources.  The columns are those the
    statements of routes.py name, in the order of the INSERT statements,
    after a serial key; habits.goals has the unique constraint on
    [user_detail_id] that its ON CONFLICT clause names, and
    habits.feedback assigns [created_at] on the server. *)
Definition habits_columns : list (string * list column) :=
  [("user_detail",
    [Column "user_detail_id" DSerial false;
     Column "user_detail_username" DNull false;
     Column "user_detail_password" DNull false]);
   ("sleep",
    [Column "sleep_id" DSerial false;
     Column "sleep_duration" DNull false;
     Column "sleep_date" DNull false;
     Column "sleep_log" DNull false;
     Column "sleep_rating" DNull false;
     Column "user_detail_id" DNull false]);
   ("diet",
    [Column "diet_id" DSerial false;
     Column "diet_name" DNull false;
     Column "diet_date" DNull false;
     Column "diet_log" DNull false;
     Column "diet_rating" DNull false;
     Column "user_detail_id" DNull false]);
   ("workout",
    [Column "workout_id" DSerial false;
     Column "workout_name" DNull false;
     Column "workout_date" DNull false;
     Column "workout_duration" DNull false;
     Column "workout_intensity" DNull false;
     Column "workout_type" DNull false;
     Column "workout_log" DNull false;
     Column "workout_rating" DNull false;
     Column "user_detail_id" DNull false]);
   ("goals",
    [Column "goals_id" DSerial false;
     Column "sleep_len_goal" DNull false;
     Column "better_sleep" DNull false;
     Column "intensity" DNull false;
     Column "diet" DNull false;
     Column "user_detail_id" DNull true]);
   ("feedback",
    [Column "feedback_id" DSerial false;
     Column "user_detail_id" DNull false;
     Column "feedback_type" DNull false;
     Column "feedback_page" DNull false;
     Column "feedback_message" DNull false;
     Column "feedback_rating" DNull false;
     Column "contact_email" DNull false;
     Column "created_at" DNow false])].

(** The rows of a small installation: one user, three nights of sleep (entered
    out of date order), one goal, two feedback rows, one without a rating. *)
Definition demo_rows (name : string) : list tuple :=
  if bool_decide (name = "user_detail") then
    [[VInt 1; VText "ada"; VText "pbkdf2:sha256$ada"]]
  else if bool_decide (name = "sleep") then
    [[VInt 1; VInt 7; VTime 20; VText ""; VInt 4; VInt 1];
     [VInt 2; VInt 6; VTime 22; VText ""; VInt 3; VInt 1];
     [VInt 3; VInt 8; VTime 21; VText ""; VInt 5; VInt 1];
     [VInt 4; VInt 9; VTime 23; VText ""; VInt 5; VInt 2]]
  else if bool_decide (name = "goals") then
    [[VInt 1; VText "7"; VText "4"; VText "5"; VText "3"; VInt 1]]
  else if bool_decide (name = "feedback") then
    [[VInt 1; VInt 1; VText "idea"; VText "home"; VText "more charts";
      VNull; VNull; VTime 100];
     [VInt 2; VInt 1; VText "praise"; VText "sleep"; VText "nice";
      VInt 5; VNull; VTime 101]]
  else [].

Definition demo_table (name : string) : table :=
  Table (default [] (list_to_map (M := gmap string (list column))
                       habits_columns !! name))
        (demo_rows name) 10.

Definition demo_database : database :=
  Database
    (list_to_map ((λ '(name, _), (name, demo_table name)) <$> habits_columns))
    1000.

Definition demo_server : server := Server true demo_database.

Definition ada : user := User (VInt 1) (Some "ada").

(** A newest workout of intensity 8 under an intensity goal of 10. *)
Definition workout_8 : list workout_row :=
  [WorkoutRow 1 "run" 100 30 8 "cardio" "" 4 1].
Definition goal_intensity_10 : list goals_row := [GoalsRow 1 7 4 10 3 1].


(** ** Further notions for the tip functions *)

(** The verdict on the newest entry's value [newest] against [goal] in the
    list [tips]: the [above] message is there exactly when
    [newest >= goal], the [below] message exactly when not, and the one
    that is there prints [newest]. *)
Definition newest_verdict (above below : string → string)
    (newest goal : Z) (tips : list string) : Prop :=
  (emits above tips ↔ goal ≤ newest)
  ∧ (emits below tips ↔ newest < goal)
  ∧ (goal ≤ newest → above (Py.str newest) ∈ tips)
  ∧ (newest < goal → below (Py.str newest) ∈ tips).

(** ** Logging in: [User], [load_user], [login]

    These subscript what [fetchone] returned, call werkzeug and Flask-Login,
    and change the session: they meet more exceptions than the routes above
    and more state than the database.

    Not modelled: [self.id = str(id)] and the reading of that text by the
    server as the key it spells (the id is kept as the [value] the server
    compares, as for [current_user] above), and what Flask-Login keeps in
    the session besides the id of the user logged in. *)

Inductive exception :=
  | Exn (e : exn)       (* the exceptions of the routes above *)
  | TypeError           (* None[i] *)
  | IndexError          (* row[i], i past the end of the row *)
  | AttributeError.     (* a method of None, inside werkzeug *)

Inductive raised (A : Type) :=
  | Done (a : A)
  | Raised (e : exception).
Arguments Done {A} a.
Arguments Raised {A} e.

(** What serves a request: the database server, and the session, in which
    Flask-Login keeps [get_id()] of the user logged in. *)
Record app := App {
  db_server : server;
  session_user_id : option value }.

Definition python (A : Type) : Type := app → raised A * app.

#[export] Instance python_ret : MRet python := λ A a w, (Done a, w).
#[export] Instance python_bind : MBind python := λ A B f m w,
  match m w with
  | (Done a, w') => f a w'
  | (Raised e, w') => (Raised e, w')
  end.

(** A computation on the database server, run while serving a request. *)
Definition lift {A} (m : py A) : python A :=
  λ w, match m (db_server w) with
       | (Return a, s) => (Done a, App s (session_user_id w))
       | (Raise e, s) => (Raised (Exn e), App s (session_user_id w))
       end.

(** The result of a call that touches neither the server nor the session. *)
Definition of_raised {A} (r : raised A) : python A := λ w, (r, w).

(** [try: body except (Exception, psycopg2.Error) as error: handler] *)
Definition try_except_exception {A} (body : python A)
    (handler : exception → python A) : python A :=
  λ w, match body w with
       | (Raised e, w') => handler e w'
       | r => r
       end.

(** [row[i]] on what [fetchone] returned. *)
Definition subscript (row : option tuple) (i : nat) : python value :=
  match row with
  | None => of_raised (Raised TypeError)
  | Some r =>
      match r !! i with
      | Some v => mret v
      | None => of_raised (Raised IndexError)
      end
  end.

(** [if row:] on what [fetchone] returned: [None] and the empty tuple are
    false. *)
Definition truthy (row : option tuple) : bool :=
  match row with
  | Some (_ :: _) => true
  | _ => false
  end.

(** An object of the class [User]; [None] is [VNull]. *)
Record user_object := UserObject {
  self_id : value;
  self_username : value }.

(** [User.get_id] *)
Definition get_id (self : user_object) : value := self_id self.

(** [User.get_username], on the id of [self] *)
Definition get_username (self_id : value) : python value :=
  try_except_exception
    (conn ← lift get_db_connection;
     '(_, cur) ← lift (execute conn (Query
       (Select (Exprs [Col "user_detail_username"]) "user_detail"
               ("user_detail_id", self_id) None None)));
     username ← subscript (fetchone cur) 0;
     lift (close conn);;
     mret username)
    (λ error, mret VNull).

(** [User(id)], that is [User.__init__] *)
Definition User__init__ (id : value) : python user_object :=
  username ← get_username id;
  mret (UserObject id username).

(** [load_user(user_id)] *)
Definition load_user (user_id : value) : python (option user_object) :=
  conn ← lift get_db_connection;
  '(_, cur) ← lift (execute conn (Query
    (Select Star "user_detail" ("user_detail_id", user_id) None None)));
  let user_data := fetchone cur in
  lift (close conn);;
  if truthy user_data then
    id ← subscript user_data 0;
    user ← User__init__ id;
    mret (Some user)
  else mret None.

(** [flask_login.login_user(user)]: the session takes [user.get_id()]. *)
Definition login_user (user : user_object) : python bool :=
  λ w, (Done true, App (db_server w) (Some (get_id user))).

(** [flask_login.logout_user()] *)
Definition logout_user : python bool :=
  λ w, (Done true, App (db_server w) None).

Section login.

(** [werkzeug.security.check_password_hash(pwhash, password)], on what the
    row and the form hold; it returns or raises, and touches nothing. *)
Context (check_password_hash : value → option string → raised bool).

(** [login()], route /login *)
Definition login (req : request) : python response :=
  if bool_decide (method req = "POST") then
    let username := form_get req "username" in
    let password := form_get req "password" in
    conn ← lift get_db_connection;
    '(_, cur) ← lift (execute conn (Query
      (Select Star "user_detail"
              ("user_detail_username", param username) None None)));
    let user_data := fetchone cur in
    lift (close conn);;
    accepted ← (if truthy user_data then
                  pwhash ← subscript user_data 2;
                  of_raised (check_password_hash pwhash password)
                else mret false);
    if accepted : bool then
      id ← subscript user_data 0;
      user ← User__init__ id;
      login_user user;;
      mret (Redirect "/")
    else
      mret (RenderTemplate "login.html"
              [("error", CStr (Some "Incorrect username or password"))])
  else mret (RenderTemplate "login.html" []).

End login.

(** [logout()], route /logout (behind [@login_required]) *)
Definition logout : python response :=
  logout_user;;
  mret (Redirect "/login").

(** Hashing for the demonstration database: the hash of a password is the
    password behind the method's name, and the check compares. *)
Definition demo_generate_password_hash (password : string) : string :=
  "pbkdf2:sha256$" +:+ password.

Definition demo_check_password_hash (pwhash : value)
    (password : option string) : raised bool :=
  match password with
  | Some password =>
      Done (bool_decide
              (pwhash = VText (demo_generate_password_hash password)))
  | None => Raised AttributeError
  end.

Definition incorrect_page : response :=
  RenderTemplate "login.html"
    [("error", CStr (Some "Incorrect username or password"))].
(** ** Strings *)

Section strings.
Implicit Types s t x y : string.

Lemma string_app_nil s : "" +:+ s = s.
Proof. done. Qed.

Lemma string_app_cons a s t : String a s +:+ t = String a (s +:+ t).
Proof. done. Qed.

Lemma string_length_app s t :
  String.length (s +:+ t) = (String.length s + String.length t)%nat.
Proof.
  induction s as [|a s IH]; [done|].
  rewrite string_app_cons. simpl. by rewrite IH.
Qed.

Lemma string_app_assoc s t x : s +:+ (t +:+ x) = (s +:+ t) +:+ x.
Proof.
  induction s as [|a s IH]; [done|].
  rewrite !string_app_cons. by rewrite IH.
Qed.

(** Two equal strings have the same last characters. *)
Lemma string_app_tail x y s t :
  String.length s = String.length t → x +:+ s = y +:+ t → s = t.
Proof.
  revert y. induction x as [|a x IH]; intros [|b y] Hlen Heq.
  - done.
  - apply (f_equal String.length) in Heq.
    rewrite string_app_nil, string_app_cons in Heq. simpl in Heq.
    rewrite string_length_app in Heq. lia.
  - apply (f_equal String.length) in Heq.
    rewrite string_app_nil, string_app_cons in Heq. simpl in Heq.
    rewrite string_length_app in Heq. lia.
  - rewrite !string_app_cons in Heq. injection Heq as _ Heq.
    by apply (IH y).
Qed.

Lemma message_tail_neq p1 f1 s1 t1 p2 f2 s2 t2 :
  String.length t1 = String.length t2 → t1 ≠ t2 →
  p1 +:+ f1 +:+ s1 +:+ t1 ≠ p2 +:+ f2 +:+ s2 +:+ t2.
Proof.
  intros Hlen Hne Heq. apply Hne.
  rewrite !string_app_assoc in Heq. by apply string_app_tail in Heq.
Qed.
End strings.

(** ** The loops compute the sum and the count *)

Lemma zsum_cons x xs : zsum (x :: xs) = x + zsum xs.
Proof. done. Qed.

Lemma loop_sum_count {A} (f : A → Z) (l : list A) (a n : Z) :
  foldl (λ '(s, k) x, (s + f x, k + 1)) (a, n) l
  = (a + zsum (f <$> l), n + Z.of_nat (length l)).
Proof.
  revert a n. induction l as [|x l IH]; intros a n.
  - simpl. f_equal; unfold zsum; simpl; lia.
  - cbn [foldl length]. rewrite IH, fmap_cons, zsum_cons, Nat2Z.inj_succ.
    f_equal; lia.
Qed.

Lemma diet_loop_spec l :
  diet_loop l = (zsum (diet_rating <$> l), Z.of_nat (length l)).
Proof. unfold diet_loop. by rewrite loop_sum_count. Qed.

Lemma work_loop_spec l :
  work_loop l = (zsum (workout_intensity <$> l), Z.of_nat (length l)).
Proof. unfold work_loop. by rewrite loop_sum_count. Qed.

Lemma sleep_loop_spec l :
  sleep_loop l = (zsum (sleep_duration <$> l), zsum (sleep_rating <$> l),
                  Z.of_nat (length l)).
Proof.
  unfold sleep_loop.
  assert (∀ a b n,
    foldl (λ '(sleep_len_avg, sleep_qual_avg, sleeps) sleep,
             (sleep_len_avg + sleep_duration sleep,
              sleep_qual_avg + sleep_rating sleep, sleeps + 1)) (a, b, n) l
    = (a + zsum (sleep_duration <$> l), b + zsum (sleep_rating <$> l),
       n + Z.of_nat (length l))) as Hgen.
  { induction l as [|x l IH]; intros a b n.
    - simpl. f_equal; [f_equal|]; unfold zsum; simpl; lia.
    - cbn [foldl length].
      rewrite IH, !fmap_cons, !zsum_cons, Nat2Z.inj_succ.
      f_equal; [f_equal|]; lia. }
  by rewrite Hgen.
Qed.

(** The average the tip functions format and compare is the mean. *)
Lemma truediv_mean {A} (f : A → Z) (l : list A) :
  Py.truediv (zsum (f <$> l)) (Z.of_nat (length l)) = mean (f <$> l).
Proof. unfold mean, Py.truediv. by rewrite length_fmap. Qed.

Lemma py_ge_iff (a : Q) (b : Z) : Py.ge a b = true ↔ (inject_Z b <= a)%Q.
Proof. apply Qle_bool_iff. Qed.

Lemma py_ge_false (a : Q) (b : Z) : Py.ge a b = false ↔ ¬ (inject_Z b <= a)%Q.
Proof. rewrite <- py_ge_iff. by destruct (Py.ge a b). Qed.

(** ** The messages are pairwise different *)

Lemma diet_avg_meets_below f g : Msg.diet_avg_meets f ≠ Msg.diet_avg_below g.
Proof.
  exact (message_tail_neq
    "Your Average (" f ") currently meets or is passin" "g your goal!"
    "Your Average (" g ") is currently belo" "w your goal!"
    eq_refl ltac:(discriminate)).
Qed.

Lemma work_avg_meets_below f g : Msg.work_avg_meets f ≠ Msg.work_avg_below g.
Proof.
  exact (message_tail_neq
    "Your Average intensity (" f ") currently meets or is passin" "g your goal!"
    "Your Average intensity (" g ") is currently belo" "w your goal!"
    eq_refl ltac:(discriminate)).
Qed.

Lemma sleep_len_avg_meets_below f g :
  Msg.sleep_len_avg_meets f ≠ Msg.sleep_len_avg_below g.
Proof.
  exact (message_tail_neq
    "Your Average length of sleep (" f ") currently meets or is passin"
    "g your goal!"
    "Your Average length of sleep (" g ") is currently belo" "w your goal!"
    eq_refl ltac:(discriminate)).
Qed.

(** A membership [m ∈ [m1; ...; mk]] between messages that differ. *)
Ltac refute_message :=
  repeat match goal with
  | H : _ ∈ [] |- _ => by apply elem_of_nil in H
  | H : _ ∈ _ :: _ |- _ => apply elem_of_cons in H as [H|H]
  | H : _ ∈ _ ++ _ |- _ => apply elem_of_app in H as [H|H]
  | H : _ = _ |- _ =>
      first [ discriminate H
            | by apply diet_avg_meets_below in H
            | by symmetry in H; apply diet_avg_meets_below in H
            | by apply work_avg_meets_below in H
            | by symmetry in H; apply work_avg_meets_below in H
            | by apply sleep_len_avg_meets_below in H
            | by symmetry in H; apply sleep_len_avg_meets_below in H ]
  end.

Lemma average_verdict_meets meets below avg goal tips :
  (inject_Z goal <= avg)%Q →
  meets (Py.format_2f avg) ∈ tips → (∀ f, below f ∉ tips) →
  average_verdict meets below avg goal tips.
Proof.
  intros Hle Hin Hout. repeat split; try done.
  - by exists (Py.format_2f avg).
  - by intros [f ?%Hout].
Qed.

Lemma average_verdict_below meets below avg goal tips :
  ¬ (inject_Z goal <= avg)%Q →
  below (Py.format_2f avg) ∈ tips → (∀ f, meets f ∉ tips) →
  average_verdict meets below avg goal tips.
Proof.
  intros Hle Hin Hout. repeat split; try done.
  - by intros [f ?%Hout].
  - by exists (Py.format_2f avg).
Qed.

Lemma diet_tips_average d0 ds g0 gs :
  average_verdict Msg.diet_avg_meets Msg.diet_avg_below
    (mean (diet_rating <$> d0 :: ds)) (diet g0)
    (diet_tips (d0 :: ds) (g0 :: gs)).
Proof.
  unfold diet_tips. rewrite diet_loop_spec. cbv beta iota zeta. rewrite truediv_mean.
  destruct (Py.ge _ _) eqn:Hge.
  - apply py_ge_iff in Hge. apply average_verdict_meets; [done|set_solver|].
    intros f Hin. destruct (_ >=? _); refute_message.
  - apply py_ge_false in Hge. apply average_verdict_below; [done|set_solver|].
    intros f Hin. destruct (_ >=? _); refute_message.
Qed.

Lemma workout_tips_average w0 ws g0 gs :
  average_verdict Msg.work_avg_meets Msg.work_avg_below
    (mean (workout_intensity <$> w0 :: ws)) (intensity g0)
    (workout_tips (w0 :: ws) (g0 :: gs)).
Proof.
  unfold workout_tips. rewrite work_loop_spec. cbv beta iota zeta. rewrite truediv_mean.
  destruct (Py.ge _ _) eqn:Hge.
  - apply py_ge_iff in Hge. apply average_verdict_meets; [done|set_solver|].
    intros f Hin.
    destruct (_ >=? intensity _); [destruct (_ >=? 8)|]; refute_message.
  - apply py_ge_false in Hge. apply average_verdict_below; [done|set_solver|].
    intros f Hin.
    destruct (_ >=? intensity _); [destruct (_ >=? 8)|]; refute_message.
Qed.

Lemma sleep_tips_average s0 ss g0 gs :
  average_verdict Msg.sleep_len_avg_meets Msg.sleep_len_avg_below
    (mean (sleep_duration <$> s0 :: ss)) (sleep_len_goal g0)
    (sleep_tips (s0 :: ss) (g0 :: gs)).
Proof.
  unfold sleep_tips. rewrite sleep_loop_spec. cbv beta iota zeta. rewrite !truediv_mean.
  destruct (Py.ge (mean (sleep_duration <$> _)) _) eqn:Hge.
  - apply py_ge_iff in Hge. apply average_verdict_meets; [done|set_solver|].
    intros f Hin.
    destruct (_ >=? sleep_len_goal _), (Py.ge _ _), (_ >=? better_sleep _);
      refute_message.
  - apply py_ge_false in Hge. apply average_verdict_below; [done|set_solver|].
    intros f Hin.
    destruct (_ >=? sleep_len_goal _), (Py.ge _ _), (_ >=? better_sleep _);
      refute_message.
Qed.

(** The second metric of [sleep_tips]: the average quality. *)
Lemma sleep_tips_quality_average s0 ss g0 gs :
  average_verdict Msg.sleep_qual_avg_above Msg.sleep_qual_avg_below
    (mean (sleep_rating <$> s0 :: ss)) (better_sleep g0)
    (sleep_tips (s0 :: ss) (g0 :: gs)).
Proof.
  unfold sleep_tips. rewrite sleep_loop_spec. cbv beta iota zeta.
  rewrite !truediv_mean.
  destruct (Py.ge (mean (sleep_rating <$> _)) _) eqn:Hge.
  - apply py_ge_iff in Hge. apply average_verdict_meets; [done| |].
    + destruct (Py.ge _ _), (_ >=? sleep_len_goal _); set_solver.
    + intros f Hin.
      destruct (Py.ge _ _), (_ >=? sleep_len_goal _), (_ >=? better_sleep _);
        refute_message.
  - apply py_ge_false in Hge. apply average_verdict_below; [done| |].
    + destruct (Py.ge _ _), (_ >=? sleep_len_goal _); set_solver.
    + intros f Hin.
      destruct (Py.ge _ _), (_ >=? sleep_len_goal _), (_ >=? better_sleep _);
        refute_message.
Qed.

(** ** The order of ORDER BY is a total preorder *)

Lemma value_le_total (a b : value) : value_le a b ∨ value_le b a.
Proof.
  unfold value_le.
  destruct a as [|m|s|t], b as [|n|s'|t']; simpl; auto.
  - destruct (Z.leb_spec m n), (Z.leb_spec n m); auto; lia.
  - apply String.leb_total.
  - destruct (Z.leb_spec t t'), (Z.leb_spec t' t); auto; lia.
Qed.

Lemma value_le_trans (a b c : value) :
  value_le a b → value_le b c → value_le a c.
Proof.
  unfold value_le.
  destruct a as [|m|s|t], b as [|n|s'|t'], c as [|k|s''|t''];
    simpl; try done.
  - rewrite !Z.leb_le. lia.
  - intros H1%Is_true_true H2%Is_true_true. apply Is_true_true.
    by apply (transitivity (R := String.le) (y := s')).
  - rewrite !Z.leb_le. lia.
Qed.

#[export] Instance row_le_total dir i : Total (row_le dir i).
Proof. intros r1 r2. destruct dir; apply value_le_total. Qed.

#[export] Instance row_le_trans dir i : Transitive (row_le dir i).
Proof.
  intros r1 r2 r3. destruct dir; unfold row_le; eauto using value_le_trans.
Qed.

(** ** Running a Python computation *)

Lemma py_bind_run {A B} (m : py A) (f : A → py B) (s : server) :
  (m ≫= f) s = match m s with
               | (Return a, s') => f a s'
               | (Raise e, s') => (Raise e, s')
               end.
Proof. done. Qed.

Lemma get_db_connection_accepting (s : server) :
  accepting s = true →
  get_db_connection s = (Return (Connection (committed s)), s).
Proof. unfold get_db_connection. by intros ->. Qed.

Lemma get_db_connection_refusing (s : server) :
  accepting s = false →
  get_db_connection s = (Raise (Psycopg2Error OperationalError), s).
Proof. unfold get_db_connection. by intros ->. Qed.

(** ** SELECT *)

Lemma table_of_Some db name t :
  tables db !! name = Some t → table_of db name = Ok t.
Proof. unfold table_of. by intros ->. Qed.

Lemma table_of_None db name :
  tables db !! name = None → table_of db name = Fail (UndefinedTable name).
Proof. unfold table_of. by intros ->. Qed.

Lemma column_of_Some t c i : col_index t c = Some i → column_of t c = Ok i.
Proof. unfold column_of. by intros ->. Qed.

Lemma column_of_None t c :
  col_index t c = None → column_of t c = Fail (UndefinedColumn c).
Proof. unfold column_of. by intros ->. Qed.

Lemma result_bind_Ok {A B} (a : A) (f : A → result B) : Ok a ≫= f = f a.
Proof. done. Qed.

Lemma result_bind_Fail {A B} (e : error) (f : A → result B) :
  Fail e ≫= f = Fail e.
Proof. done. Qed.

Lemma order_by_Permutation t o rs rs' :
  order_by t o rs = Ok rs' → rs' ≡ₚ rs.
Proof.
  destruct o as [[c dir]|]; simpl.
  - destruct (column_of t c); simpl; [|done].
    intros [= <-]. apply merge_sort_Permutation.
  - by intros [= <-].
Qed.

Lemma order_by_sorted t c dir i rs rs' :
  col_index t c = Some i →
  order_by t (Some (c, dir)) rs = Ok rs' →
  StronglySorted (row_le dir i) rs'.
Proof.
  intros Hi. simpl. rewrite (column_of_Some _ _ _ Hi), result_bind_Ok.
  intros [= <-]. apply StronglySorted_merge_sort; apply _.
Qed.

(** The accessors' query, when the table and its columns are there. *)
Lemma exec_select_unlimited db what name t wc wv k oc dir i proj :
  tables db !! name = Some t →
  col_index t wc = Some k →
  col_index t oc = Some i →
  eval_projection t what = Ok proj →
  exec_select db (Select what name (wc, wv) (Some (oc, dir)) None)
  = Ok (proj <$> merge_sort (row_le dir i)
                   (filter (λ r, sql_eq (field k r) wv = true) (rows t))).
Proof.
  intros Ht Hk Hi Hproj. unfold exec_select, select_rows, order_by, limit.
  simpl.
  rewrite (table_of_Some _ _ _ Ht), result_bind_Ok.
  rewrite (column_of_Some _ _ _ Hk), result_bind_Ok.
  rewrite Hproj, result_bind_Ok.
  by rewrite (column_of_Some _ _ _ Hi), !result_bind_Ok.
Qed.

(** What a query with an ORDER BY returns, when it returns. *)
Lemma exec_select_ordered_inv db what name wc wv oc dir lim rs :
  exec_select db (Select what name (wc, wv) (Some (oc, dir)) lim) = Ok rs →
  ∃ t k i proj limited,
    tables db !! name = Some t
    ∧ col_index t wc = Some k
    ∧ col_index t oc = Some i
    ∧ eval_projection t what = Ok proj
    ∧ limit lim (merge_sort (row_le dir i)
                   (filter (λ r, sql_eq (field k r) wv = true) (rows t)))
      = Ok limited
    ∧ rs = proj <$> limited.
Proof.
  unfold exec_select, select_rows, table_of, column_of, order_by. simpl.
  destruct (tables db !! name) as [t|] eqn:Ht; [|done]. simpl.
  destruct (col_index t wc) as [k|] eqn:Hk; [|done]. simpl.
  destruct (eval_projection t what) as [proj|] eqn:Hproj; [|done]. simpl.
  unfold column_of.
  destruct (col_index t oc) as [i|] eqn:Hi; [|done]. simpl.
  destruct (limit lim _) as [limited|] eqn:Hlim; [|done]. simpl.
  intros [= <-]. by exists t, k, i, proj, limited.
Qed.

Lemma exec_select_unlimited_inv db what name wc wv oc dir rs :
  exec_select db (Select what name (wc, wv) (Some (oc, dir)) None) = Ok rs →
  ∃ t k i proj,
    tables db !! name = Some t
    ∧ col_index t wc = Some k
    ∧ col_index t oc = Some i
    ∧ eval_projection t what = Ok proj
    ∧ rs = proj <$> merge_sort (row_le dir i)
                      (filter (λ r, sql_eq (field k r) wv = true) (rows t)).
Proof.
  intros (t & k & i & proj & limited & Ht & Hk & Hi & Hproj & [= <-] & ->)
    %exec_select_ordered_inv.
  by exists t, k, i, proj.
Qed.

Lemma eval_projection_pair t c1 c2 proj :
  eval_projection t (Exprs [Col c1; Col c2]) = Ok proj →
  ∃ i j, col_index t c1 = Some i ∧ col_index t c2 = Some j
         ∧ proj = λ r, [field i r; field j r].
Proof.
  unfold eval_projection, eval_exprs, eval_expr, column_of.
  destruct (col_index t c1) as [i|] eqn:Hi; [|done].
  destruct (col_index t c2) as [j|] eqn:Hj; [|done]. simpl.
  intros [= <-]. by exists i, j.
Qed.

(** ** The accessors *)

Lemma get_data_run u name s :
  accepting s = true →
  get_data u name s
  = (Return (match exec_select (committed s) (data_query u name) with
             | Ok rs => rs
             | Fail _ => []
             end), s).
Proof.
  intros Hs. unfold get_data.
  rewrite py_bind_run, get_db_connection_accepting by done.
  unfold try_finally, try_except_psycopg2, execute, exec.
  rewrite py_bind_run. simpl.
  by destruct (exec_select _ _).
Qed.

Lemma get_chart_data_run u name dc vc s :
  accepting s = true →
  get_chart_data u name dc vc s
  = (Return (match exec_select (committed s) (chart_query u name dc vc) with
             | Ok rs => rs
             | Fail _ => []
             end), s).
Proof.
  intros Hs. unfold get_chart_data.
  rewrite py_bind_run, get_db_connection_accepting by done.
  unfold try_finally, try_except_psycopg2, execute, exec.
  rewrite py_bind_run. simpl.
  by destruct (exec_select _ _).
Qed.

(** ** Sorting commutes with a change of the rows that keeps the order *)

Section merge_sort_fmap.
Context {A : Type} (R : relation A) `{∀ x y, Decision (R x y)}.
Context (f : A → A) (Hf : ∀ x y, R (f x) (f y) ↔ R x y).

Local Abbreviation fstack := (fmap (M := list) (fmap (M := option) (fmap f))).

Lemma list_merge_fmap l1 l2 :
  list_merge R (f <$> l1) (f <$> l2) = f <$> list_merge R l1 l2.
Proof.
  revert l2. induction l1 as [|x1 l1 IH1]; intros l2.
  - by rewrite fmap_nil, !list_merge_nil_l.
  - induction l2 as [|x2 l2 IH2].
    + by rewrite fmap_nil, !list_merge_nil_r.
    + rewrite !fmap_cons, !list_merge_cons.
      destruct (decide (R x1 x2)) as [Hx|Hx].
      * rewrite decide_True by by apply Hf.
        rewrite fmap_cons. f_equal.
        by rewrite <- IH1, fmap_cons.
      * rewrite decide_False by by rewrite Hf.
        rewrite fmap_cons. f_equal.
        by rewrite <- IH2, fmap_cons.
Qed.

Lemma merge_list_to_stack_fmap st l :
  merge_list_to_stack R (fstack st) (f <$> l)
  = fstack (merge_list_to_stack R st l).
Proof.
  revert l. induction st as [|[l'|] st IH]; intros l; csimpl; [done| |done].
  by rewrite list_merge_fmap, IH.
Qed.

Lemma merge_stack_fmap st :
  merge_stack R (fstack st) = f <$> merge_stack R st.
Proof.
  induction st as [|[l'|] st IH]; csimpl; [done| |done].
  by rewrite IH, list_merge_fmap.
Qed.

Lemma merge_sort_aux_fmap st l :
  merge_sort_aux R (fstack st) (f <$> l) = f <$> merge_sort_aux R st l.
Proof.
  revert st. induction l as [|x l IH]; intros st; csimpl.
  - apply merge_stack_fmap.
  - rewrite <- IH. f_equal.
    apply (merge_list_to_stack_fmap st [x]).
Qed.

Lemma merge_sort_fmap l : merge_sort R (f <$> l) = f <$> merge_sort R l.
Proof. apply (merge_sort_aux_fmap []). Qed.

End merge_sort_fmap.

Lemma filter_fmap_same {A} (P : A → Prop) `{∀ x, Decision (P x)}
    (f : A → A) (l : list A) :
  (∀ x, P (f x) ↔ P x) → filter P (f <$> l) = f <$> filter P l.
Proof.
  intros Hf. induction l as [|x l IH]; [done|].
  rewrite fmap_cons, !filter_cons.
  destruct (decide (P x)) as [Hx|Hx].
  - rewrite decide_True by by apply Hf. by rewrite fmap_cons, IH.
  - rewrite decide_False by by rewrite Hf. done.
Qed.

(** ** The feedback listing *)

Lemma col_index_name t c i :
  col_index t c = Some i → ∃ col, columns t !! i = Some col ∧ col_name col = c.
Proof.
  unfold col_index. intros ([i' col] & Hfind & ->)%fmap_Some.
  apply list_find_Some in Hfind as (Hcol & Hname & _). by exists col.
Qed.

(** Two names that differ are not found in the same position. *)
Lemma col_index_ne t c1 c2 i1 i2 :
  col_index t c1 = Some i1 → col_index t c2 = Some i2 → c1 ≠ c2 → i1 ≠ i2.
Proof.
  intros (col1 & H1 & <-)%col_index_name (col2 & H2 & <-)%col_index_name
    Hne ->.
  congruence.
Qed.

Lemma field_zero_rating_ne ir i r :
  i ≠ ir → field i (zero_rating ir r) = field i r.
Proof.
  intros Hne. unfold field, zero_rating.
  by rewrite list_lookup_total_insert_ne.
Qed.

Lemma coalesce_zero_rating ir r :
  coalesce (field ir (zero_rating ir r)) (VInt 0)
  = coalesce (field ir r) (VInt 0).
Proof.
  unfold field at 1, zero_rating.
  destruct (decide (ir < length r)%nat) as [Hlt|Hge].
  - rewrite list_lookup_total_insert_eq by done.
    by destruct (field ir r).
  - by rewrite list_insert_ge by lia.
Qed.

Lemma coalesce_not_null v d : d ≠ VNull → coalesce v d ≠ VNull.
Proof. by destruct v. Qed.

Lemma _get_feedback_for_user_run u lim s :
  accepting s = true →
  _get_feedback_for_user u lim s
  = (match exec_select (committed s) (feedback_query u lim) with
     | Ok rs => Return rs
     | Fail e => Raise (Psycopg2Error e)
     end, s).
Proof.
  intros Hs. unfold _get_feedback_for_user.
  rewrite py_bind_run, get_db_connection_accepting by done.
  rewrite py_bind_run. unfold execute, exec. simpl.
  by destruct (exec_select _ _).
Qed.

(** The seven expressions of the listing, evaluated on the table. *)
Lemma eval_projection_feedback t u lim proj :
  eval_projection t (sel_what (feedback_query u lim)) = Ok proj →
  ∃ i1 i2 i3 i4 ir i6 i7,
    col_index t "feedback_id" = Some i1
    ∧ col_index t "feedback_type" = Some i2
    ∧ col_index t "feedback_page" = Some i3
    ∧ col_index t "feedback_message" = Some i4
    ∧ col_index t "feedback_rating" = Some ir
    ∧ col_index t "contact_email" = Some i6
    ∧ col_index t "created_at" = Some i7
    ∧ proj = λ r, [field i1 r; field i2 r; field i3 r; field i4 r;
                   coalesce (field ir r) (VInt 0); field i6 r; field i7 r].
Proof.
  unfold eval_projection, feedback_query, eval_exprs, eval_expr, column_of.
  simpl.
  destruct (col_index t "feedback_id") as [i1|]; [|done].
  destruct (col_index t "feedback_type") as [i2|]; [|done].
  destruct (col_index t "feedback_page") as [i3|]; [|done].
  destruct (col_index t "feedback_message") as [i4|]; [|done].
  destruct (col_index t "feedback_rating") as [ir|]; [|done].
  destruct (col_index t "contact_email") as [i6|]; [|done].
  destruct (col_index t "created_at") as [i7|]; [|done].
  simpl. intros [= <-]. by exists i1, i2, i3, i4, ir, i6, i7.
Qed.

Lemma limit_fmap (f : tuple → tuple) n rs :
  limit n (f <$> rs) = (fmap (M := list) f) <$> limit n rs.
Proof.
  unfold limit. destruct n as [n|]; [|done].
  destruct (n <? 0); [done|]. simpl. by rewrite fmap_take.
Qed.

(** Reading the columns of a table does not depend on its rows. *)
Lemma column_of_same_columns t rs nk c :
  column_of (Table (columns t) rs nk) c = column_of t c.
Proof. done. Qed.

Lemma eval_exprs_same_columns t rs nk es :
  eval_exprs (Table (columns t) rs nk) es = eval_exprs t es.
Proof.
  induction es as [|e es IH]; [done|].
  cbn [eval_exprs]. rewrite IH. by destruct e.
Qed.

Lemma eval_projection_same_columns t rs nk p :
  eval_projection (Table (columns t) rs nk) p = eval_projection t p.
Proof.
  destruct p as [|es]; [done|]. unfold eval_projection.
  by rewrite eval_exprs_same_columns.
Qed.

(** The listing does not tell a rating stored as NULL from one stored
    as 0. *)
Lemma select_rows_zero_rating t ir u lim :
  col_index t "feedback_rating" = Some ir →
  select_rows (Table (columns t) (zero_rating ir <$> rows t) (next_key t))
              (feedback_query u lim)
  = select_rows t (feedback_query u lim).
Proof.
  intros Hir. unfold select_rows.
  rewrite column_of_same_columns, eval_projection_same_columns.
  destruct (eval_projection t _) as [proj|] eqn:Hproj.
  2: { by destruct (column_of t _). }
  apply (eval_projection_feedback t u lim) in Hproj
    as (i1 & i2 & i3 & i4 & ir' & i6 & i7 & H1 & H2 & H3 & H4 & Hir' & H6
        & H7 & ->).
  assert (ir' = ir) as -> by congruence.
  cbn [feedback_query sel_where sel_order sel_limit fst snd rows].
  destruct (col_index t "user_detail_id") as [k|] eqn:Hk.
  2: { by rewrite (column_of_None _ _ Hk). }
  rewrite (column_of_Some _ _ _ Hk), !result_bind_Ok.
  unfold order_by.
  rewrite column_of_same_columns, (column_of_Some _ _ _ H7), !result_bind_Ok.
  assert (k ≠ ir) as Hkr by (by eapply col_index_ne).
  assert (i1 ≠ ir) by (by eapply col_index_ne).
  assert (i2 ≠ ir) by (by eapply col_index_ne).
  assert (i3 ≠ ir) by (by eapply col_index_ne).
  assert (i4 ≠ ir) by (by eapply col_index_ne).
  assert (i6 ≠ ir) by (by eapply col_index_ne).
  assert (i7 ≠ ir) as H7r by (by eapply col_index_ne).
  rewrite filter_fmap_same
    by (intros r; by rewrite field_zero_rating_ne).
  rewrite (merge_sort_fmap (row_le Desc i7) (zero_rating ir))
    by (intros r1 r2; unfold row_le; by rewrite !field_zero_rating_ne).
  rewrite limit_fmap.
  destruct (limit (Some lim) _) as [limited|]; [|done].
  cbn [fmap result_fmap mbind result_bind]. f_equal.
  rewrite <- list_fmap_compose. apply list_fmap_ext. intros _ r _. simpl.
  by rewrite coalesce_zero_rating, !field_zero_rating_ne.
Qed.

Lemma exec_select_ratings_zeroed db u lim :
  exec_select (ratings_zeroed db) (feedback_query u lim)
  = exec_select db (feedback_query u lim).
Proof.
  unfold ratings_zeroed.
  destruct (tables db !! "feedback") as [t|] eqn:Ht; [|done].
  destruct (col_index t "feedback_rating") as [ir|] eqn:Hir; [|done].
  unfold exec_select, table_of. cbn [feedback_query sel_from tables].
  rewrite lookup_insert_eq, Ht. cbn [or_fail].
  rewrite !result_bind_Ok. by apply select_rows_zero_rating.
Qed.

(** ** INSERT *)

Lemma proposed_row_length t db vs :
  length (proposed_row t db vs) = length (columns t).
Proof. unfold proposed_row. by rewrite length_fmap. Qed.

(** The proposed row has, in the position of a column the INSERT names, the
    value given for it. *)
Lemma proposed_row_field t db vs c i v :
  col_index t c = Some i → assigned c vs = Some v →
  field i (proposed_row t db vs) = v.
Proof.
  intros (col & Hcol & <-)%col_index_name Hv.
  unfold field, proposed_row. apply list_lookup_total_correct.
  rewrite list_lookup_fmap, Hcol. simpl. by rewrite Hv.
Qed.

Lemma unknown_column_None t cs :
  has_columns t cs → unknown_column t cs = None.
Proof.
  intros Hcs. unfold unknown_column. apply fmap_None, list_find_None.
  eapply Forall_impl; [exact Hcs|]. intros c [i Hi] Hnone. congruence.
Qed.

Lemma unknown_column_None_inv t cs :
  unknown_column t cs = None → has_columns t cs.
Proof.
  unfold unknown_column. intros Hnone%fmap_None%list_find_None.
  eapply Forall_impl; [exact Hnone|]. intros c Hc. simpl in Hc.
  by destruct (col_index t c); [|done].
Qed.

(** No unique constraint stands in the way of [new] when no stored row has
    its value in a unique column. *)
Lemma violated_None t new :
  (∀ j col, columns t !! j = Some col → col_unique col = true →
            Forall (λ old, sql_eq (field j old) (field j new) ≠ true)
                   (rows t)) →
  violated t new = None.
Proof.
  intros Hfree. unfold violated. apply fmap_None, list_find_None.
  apply Forall_forall. intros [j col] Hin [Hunique Hex]. simpl in *.
  apply list_elem_of_lookup in Hin as [j' Hin].
  rewrite list_lookup_imap in Hin.
  destruct (columns t !! j') as [col'|] eqn:Hcol; [|done].
  simpl in Hin. injection Hin as <- <-.
  specialize (Hfree _ _ Hcol Hunique).
  apply Exists_exists in Hex as (old & Hold & Heq).
  rewrite Forall_forall in Hfree. by apply (Hfree old).
Qed.

Lemma violated_None_no_unique t new :
  Forall (λ col, col_unique col = false) (columns t) →
  violated t new = None.
Proof.
  intros Hnone. apply violated_None. intros j col Hcol Hunique.
  rewrite Forall_forall in Hnone.
  apply list_elem_of_lookup_2 in Hcol. apply Hnone in Hcol. congruence.
Qed.

(** What a plain INSERT leaves, when the server accepts it. *)
Lemma exec_insert_plain_inv db name vs db' :
  exec_insert db (Insert name vs None) = Ok db' →
  ∃ t, tables db !! name = Some t
       ∧ has_columns t vs.*1
       ∧ violated t (proposed_row t db vs) = None
       ∧ db' = Database
                 (<[name := Table (columns t)
                              (rows t ++ [proposed_row t db vs])
                              (advance_key t)]> (tables db))
                 (now db).
Proof.
  unfold exec_insert, table_of, insert_row.
  cbn [ins_into ins_values ins_on_conflict].
  destruct (tables db !! name) as [t|] eqn:Ht; [|done]. cbn [or_fail].
  rewrite result_bind_Ok.
  destruct (unknown_column t vs.*1) eqn:Hcols; [done|].
  destruct (violated t _) eqn:Hfree; [done|].
  rewrite result_bind_Ok. intros [= <-].
  exists t. split_and!; try done. by apply unknown_column_None_inv.
Qed.

(** A plain INSERT the server accepts. *)
Lemma exec_insert_plain db name vs t :
  tables db !! name = Some t →
  has_columns t vs.*1 →
  violated t (proposed_row t db vs) = None →
  exec_insert db (Insert name vs None)
  = Ok (Database
          (<[name := Table (columns t) (rows t ++ [proposed_row t db vs])
                       (advance_key t)]> (tables db))
          (now db)).
Proof.
  intros Ht Hcols Hfree. unfold exec_insert, insert_row.
  cbn [ins_into ins_values ins_on_conflict].
  rewrite (table_of_Some _ _ _ Ht), result_bind_Ok.
  by rewrite (unknown_column_None _ _ Hcols), Hfree, result_bind_Ok.
Qed.

(** ** The routes *)

Lemma py_ret_run {A} (a : A) (s : server) :
  (mret a : py A) s = (Return a, s).
Proof. done. Qed.

Lemma form_item_run req key v s :
  form req !! key = Some v → form_item req key s = (Return v, s).
Proof. unfold form_item. by intros ->. Qed.

Lemma sql_eq_true a b : sql_eq a b = true ↔ a = b ∧ a ≠ VNull.
Proof.
  unfold sql_eq.
  destruct a, b; simpl; rewrite ?bool_decide_eq_true;
    (split; [intros Heq|intros [Heq Hnull]]); done.
Qed.

(** The query of [register]: one row [(1,)] for each stored row with the
    user name. *)
Lemma existing_user_query db t i name :
  tables db !! "user_detail" = Some t →
  col_index t "user_detail_username" = Some i →
  exec_select db
    (Select (Exprs [Const (VInt 1)]) "user_detail"
            ("user_detail_username", VText name) None None)
  = Ok ((λ _, [VInt 1])
          <$> filter (λ r, sql_eq (field i r) (VText name) = true) (rows t)).
Proof.
  intros Ht Hi. unfold exec_select, select_rows.
  cbn [sel_from sel_where sel_what sel_order sel_limit fst snd].
  rewrite (table_of_Some _ _ _ Ht), result_bind_Ok.
  by rewrite (column_of_Some _ _ _ Hi), result_bind_Ok.
Qed.

(** The coercion raises nothing and yields the rating the field stands
    for. *)
Lemma rating_coercion_run rating s :
  rating_coercion rating s = (Return (valid_rating rating), s).
Proof.
  unfold rating_coercion, try_except_value_error, valid_rating.
  destruct rating as [str|]; [|done].
  rewrite py_bind_run.
  destruct (bool_decide (str = "")) eqn:Hstr.
  - apply bool_decide_eq_true in Hstr as ->. done.
  - by destruct (Py.int str).
Qed.

Lemma valid_rating_range rating n :
  valid_rating rating = Some n →
  ∃ str, rating = Some str ∧ Py.int str = Some n ∧ 1 ≤ n ≤ 5.
Proof.
  unfold valid_rating. destruct rating as [str|]; [|done].
  destruct (Py.int str) as [m|] eqn:Hint; [|done].
  destruct (Z.leb_spec 1 m), (Z.leb_spec m 5); simpl; try done.
  intros [= ->]. exists str. split_and!; try done; lia.
Qed.

Lemma commit_run conn s :
  commit conn s = (Return (), Server (accepting s) (working conn)).
Proof. done. Qed.

(** The INSERT of [feedback], run on a table that has its columns and no
    unique constraint. *)
Lemma feedback_post_run u req s t :
  method req = "POST" →
  accepting s = true →
  tables (committed s) !! "feedback" = Some t →
  has_columns t feedback_insert_columns →
  Forall (λ col, col_unique col = false) (columns t) →
  feedback u req s
  = (Return (Redirect "/feedback"),
     Server true
       (Database
          (<["feedback" :=
               Table (columns t)
                 (rows t ++
                  [proposed_row t (committed s)
                     [("user_detail_id", id u);
                      ("feedback_type",
                       VText (Py.lower (Py.strip
                                (default "" (form_get req "type")))));
                      ("feedback_page",
                       VText (Py.lower (Py.strip
                                (default "" (form_get req "page")))));
                      ("feedback_message",
                       VText (Py.strip
                                (default "" (form_get req "message"))));
                      ("feedback_rating",
                       from_option VInt VNull
                         (valid_rating (form_get req "rating")));
                      ("contact_email",
                       if bool_decide
                            (Py.strip (default "" (form_get req "email"))
                             = "")
                       then VNull
                       else VText (Py.strip
                                     (default "" (form_get req "email"))))]])
                 (advance_key t)]> (tables (committed s)))
          (now (committed s)))).
Proof.
  intros Hpost Hs Ht Hcols Hunique.
  unfold feedback. rewrite bool_decide_eq_true_2 by done.
  rewrite py_bind_run, rating_coercion_run.
  rewrite py_bind_run, get_db_connection_accepting by done.
  rewrite py_bind_run. unfold execute, exec. cbn [working].
  erewrite exec_insert_plain; [|done|done|by apply violated_None_no_unique].
  rewrite result_bind_Ok. cbn [mbind result_bind].
  rewrite !py_bind_run, commit_run. by rewrite Hs.
Qed.

(** ** The demonstration database *)

Lemma demo_table_lookup name :
  name ∈ habits_columns.*1 →
  tables (committed demo_server) !! name = Some (demo_table name).
Proof.
  intros Hname. simpl in Hname.
  repeat (apply elem_of_cons in Hname as [->|Hname]; [by vm_compute|]).
  by apply elem_of_nil in Hname.
Qed.

(** A table of the demonstration has the columns [cs]. *)
Ltac demo_has_columns :=
  unfold has_columns;
  match goal with
  | |- Forall _ ?cs => let cs' := eval hnf in cs in change cs with cs'
  end;
  repeat (apply Forall_cons_2; [by eexists; vm_compute|]);
  apply Forall_nil_2.

Lemma demo_feedback_insert_columns :
  has_columns (demo_table "feedback") feedback_insert_columns.
Proof. demo_has_columns. Qed.

Lemma demo_feedback_no_unique :
  Forall (λ col, col_unique col = false) (columns (demo_table "feedback")).
Proof. vm_compute. by repeat constructor. Qed.

(** ** When the server cannot be reached

    [get_db_connection()] stands before the [try] of the accessors: its
    exception is not caught there. *)
Lemma get_data_refused u name s :
  accepting s = false →
  get_data u name s = (Raise (Psycopg2Error OperationalError), s).
Proof.
  intros Hs. unfold get_data.
  by rewrite py_bind_run, get_db_connection_refusing.
Qed.

Lemma get_chart_data_refused u name dc vc s :
  accepting s = false →
  get_chart_data u name dc vc s = (Raise (Psycopg2Error OperationalError), s).
Proof.
  intros Hs. unfold get_chart_data.
  by rewrite py_bind_run, get_db_connection_refusing.
Qed.

(** ** INSERT ... ON CONFLICT DO UPDATE *)

Lemma field_lookup i r :
  (i < length r)%nat → r !! i = Some (field i r).
Proof. intros Hi. unfold field. by apply list_lookup_lookup_total_lt. Qed.

Lemma update_row_length t cs new old :
  length new = length (columns t) → length old = length (columns t) →
  length (update_row t cs new old) = length (columns t).
Proof.
  intros Hnew Hold. unfold update_row.
  rewrite length_zip_with, length_zip_with. lia.
Qed.

(** A field of the updated row is the proposed one for a column of SET, and
    the stored one for any other column. *)
Lemma update_row_field t cs new old i col :
  columns t !! i = Some col →
  length new = length (columns t) → length old = length (columns t) →
  field i (update_row t cs new old)
  = if bool_decide (col_name col ∈ cs) then field i new else field i old.
Proof.
  intros Hcol Hnew Hold.
  assert (i < length (columns t))%nat as Hi by by eapply lookup_lt_Some.
  unfold field at 1, update_row. apply list_lookup_total_correct.
  apply lookup_zip_with_Some. exists col, (field i new, field i old).
  split_and!; [done..|].
  apply lookup_zip_with_Some. exists (field i new), (field i old).
  split_and!; [done|apply field_lookup; lia..].
Qed.

Lemma update_row_field_set t cs new old c i :
  col_index t c = Some i → c ∈ cs →
  length new = length (columns t) → length old = length (columns t) →
  field i (update_row t cs new old) = field i new.
Proof.
  intros (col & Hcol & <-)%col_index_name Hc Hnew Hold.
  rewrite (update_row_field _ _ _ _ _ col) by done.
  by rewrite bool_decide_eq_true_2.
Qed.

Lemma update_row_field_kept t cs new old c i :
  col_index t c = Some i → c ∉ cs →
  length new = length (columns t) → length old = length (columns t) →
  field i (update_row t cs new old) = field i old.
Proof.
  intros (col & Hcol & <-)%col_index_name Hc Hnew Hold.
  rewrite (update_row_field _ _ _ _ _ col) by done.
  by rewrite bool_decide_eq_false_2.
Qed.

(** *** The unique constraint *)

Lemma unique_in_insert i rs j old r' :
  unique_in i rs → rs !! j = Some old → field i r' = field i old →
  unique_in i (<[j := r']> rs).
Proof.
  intros Huniq Hold Hfield j1 j2 r1 r2 H1 H2 Heq.
  assert (j < length rs)%nat as Hj by by eapply lookup_lt_Some.
  destruct (decide (j1 = j)) as [->|Hne1], (decide (j2 = j)) as [->|Hne2];
    try done.
  - rewrite list_lookup_insert_eq in H1 by done. injection H1 as <-.
    rewrite list_lookup_insert_ne in H2 by done.
    rewrite Hfield in Heq. by eapply Huniq.
  - rewrite list_lookup_insert_ne in H1 by done.
    rewrite list_lookup_insert_eq in H2 by done. injection H2 as <-.
    rewrite Hfield in Heq. by eapply Huniq.
  - rewrite list_lookup_insert_ne in H1, H2 by done. by eapply Huniq.
Qed.

Lemma sql_eq_sym a b : sql_eq a b = sql_eq b a.
Proof.
  destruct (sql_eq a b) eqn:Hab, (sql_eq b a) eqn:Hba; try done.
  - apply sql_eq_true in Hab as [-> Hnull].
    assert (sql_eq b b = true) by by apply sql_eq_true. congruence.
  - apply sql_eq_true in Hba as [-> Hnull].
    assert (sql_eq a a = true) by by apply sql_eq_true. congruence.
Qed.

Lemma unique_in_snoc i rs new :
  unique_in i rs →
  Forall (λ old, sql_eq (field i old) (field i new) ≠ true) rs →
  unique_in i (rs ++ [new]).
Proof.
  intros Huniq Hfree j1 j2 r1 r2 H1 H2 Heq.
  rewrite Forall_forall in Hfree.
  apply lookup_snoc_Some in H1 as [[Hj1 H1]|[-> <-]],
    H2 as [[Hj2 H2]|[-> <-]]; try done.
  - by eapply Huniq.
  - apply list_elem_of_lookup_2 in H1. by apply Hfree in H1.
  - apply list_elem_of_lookup_2 in H2. rewrite sql_eq_sym in Heq.
    by apply Hfree in H2.
Qed.

Lemma filter_none {A} (P : A → Prop) `{∀ x, Decision (P x)} (l : list A) :
  Forall (λ x, ¬ P x) l → filter P l = [].
Proof.
  induction 1 as [|x l Hx _ IH]; [done|].
  by rewrite filter_cons, decide_False.
Qed.

(** Under the constraint, the rows with a given value are at most one. *)
Lemma unique_in_filter i rs j r v :
  unique_in i rs → rs !! j = Some r → field i r = v → v ≠ VNull →
  filter (λ r', field i r' = v) rs = [r].
Proof.
  intros Huniq Hr Hv Hnull.
  rewrite <- (take_drop_middle rs j r Hr), filter_app, filter_cons.
  rewrite decide_True by done.
  assert (filter (λ r', field i r' = v) (take j rs) = []) as ->.
  { apply filter_none, Forall_forall. intros r' Hin Hr'.
    apply list_elem_of_lookup in Hin as [j' Hj'].
    pose proof (lookup_lt_Some _ _ _ Hj') as Hlt.
    rewrite length_take in Hlt.
    rewrite lookup_take_lt in Hj' by lia.
    assert (j' = j); [|lia].
    eapply Huniq; [done..|]. apply sql_eq_true. split; congruence. }
  assert (filter (λ r', field i r' = v) (drop (S j) rs) = []) as ->; [|done].
  apply filter_none, Forall_forall. intros r' Hin Hr'.
  apply list_elem_of_lookup in Hin as [j' Hj'].
  rewrite lookup_drop in Hj'.
  assert (S j + j' = j)%nat; [|lia].
  eapply Huniq; [done..|]. apply sql_eq_true. split; congruence.
Qed.

(** The upsert is accepted on a table whose one unique constraint is on the
    arbiter column. *)
Lemma upsert_row_ok t iu cs new :
  col_index t "user_detail_id" = Some iu →
  (∀ j col, columns t !! j = Some col → (col_unique col = true ↔ j = iu)) →
  has_columns t cs →
  upsert_row t "user_detail_id" cs new = Ok (upserted t iu cs new).
Proof.
  intros Hiu Hunique Hcs. unfold upsert_row, upserted.
  rewrite (column_of_Some _ _ _ Hiu), result_bind_Ok.
  destruct (col_index_name _ _ _ Hiu) as (col & Hcol & _).
  rewrite Hcol.
  assert (col_unique col = true) as -> by by apply (Hunique iu).
  rewrite (unknown_column_None _ _ Hcs).
  destruct (list_find _ _) as [[j old]|] eqn:Hfind; [done|].
  unfold insert_row. rewrite violated_None; [done|].
  intros j col' Hcol' Hu. apply (Hunique j col' Hcol') in Hu as ->.
  by apply list_find_None in Hfind.
Qed.

(** After the upsert of a row with the value [v] in the arbiter column: the
    rows are still well formed and unique in that column, and the row with
    [v] has the proposed values in the columns of SET. *)
Lemma upserted_spec t iu cs new v :
  goals_table_ok t iu →
  "user_detail_id" ∉ cs →
  length new = length (columns t) →
  field iu new = v → v ≠ VNull →
  Forall (λ r, length r = length (columns t)) (upserted t iu cs new)
  ∧ unique_in iu (upserted t iu cs new)
  ∧ ∃ j r, upserted t iu cs new !! j = Some r
           ∧ field iu r = v
           ∧ ∀ c i, c ∈ cs → col_index t c = Some i →
                    field i r = field i new.
Proof.
  intros [Hcols Hiu Hunique Hlen Huniq] Hcs Hnew Hv Hnull. unfold upserted.
  destruct (list_find _ _) as [[j old]|] eqn:Hfind.
  - apply list_find_Some in Hfind as (Hold & Heq & _).
    assert (length old = length (columns t)) as Hold_len.
    { rewrite Forall_forall in Hlen.
      by apply Hlen, (list_elem_of_lookup_2 _ j). }
    assert (field iu (update_row t cs new old) = field iu old) as Hkept
      by by apply (update_row_field_kept _ _ _ _ "user_detail_id").
    apply sql_eq_true in Heq as [Heq _].
    assert (j < length (rows t))%nat as Hj by by eapply lookup_lt_Some.
    split_and!.
    + apply Forall_insert; [done|]. by apply update_row_length.
    + by eapply unique_in_insert.
    + exists j, (update_row t cs new old). split_and!.
      * by apply list_lookup_insert_eq.
      * congruence.
      * intros c i Hc Hi. by apply (update_row_field_set _ _ _ _ c).
  - apply list_find_None in Hfind. split_and!.
    + apply Forall_app. split; [done|]. by apply Forall_singleton.
    + by apply unique_in_snoc.
    + exists (length (rows t)), new. split_and!; [|done..].
      by apply list_lookup_middle.
Qed.

(** ** The route /goals *)

(** The row the upsert of [goals] proposes. *)
Lemma goals_post_run u req s t iu :
  method req = "POST" →
  accepting s = true →
  tables (committed s) !! "goals" = Some t →
  goals_table_ok t iu →
  goals u req s
  = (Return
       (RenderTemplate "goals.html" [("user", CStr (username u))]),
     Server true
       (Database
          (<["goals" :=
               Table (columns t)
                 (upserted t iu goals_set_columns
                    (proposed_row t (committed s)
                       [("sleep_len_goal", param (form_get req "duration"));
                        ("better_sleep", param (form_get req "quality"));
                        ("intensity", param (form_get req "intense"));
                        ("diet", param (form_get req "diet"));
                        ("user_detail_id", id u)]))
                 (advance_key t)]> (tables (committed s)))
          (now (committed s)))).
Proof.
  intros Hpost Hs Ht [Hcols Hiu Hunique Hlen Huniq].
  unfold goals. rewrite bool_decide_eq_true_2 by done.
  rewrite !py_bind_run, get_db_connection_accepting by done.
  unfold execute, exec, exec_insert.
  cbn [working ins_into ins_values ins_on_conflict].
  rewrite (table_of_Some _ _ _ Ht), result_bind_Ok.
  rewrite (unknown_column_None t) by done.
  rewrite (upsert_row_ok t iu); [|done|done|].
  - rewrite !result_bind_Ok. cbn [mbind result_bind].
    cbv [mbind py_bind commit close mret py_ret working]. by rewrite Hs.
  - unfold has_columns, goals_columns, goals_set_columns in *.
    rewrite !Forall_cons in Hcols. rewrite !Forall_cons.
    destruct Hcols as (H1 & H2 & H3 & H4 & _). by split_and!.
Qed.

(** [x ∈ [x1; ..; xn]] for an [x] that is written in the list. *)
Ltac elem_of_literal :=
  by repeat first [apply list_elem_of_here | apply list_elem_of_further].

(** One submission of goals: afterwards the table is as the upsert needs
    it again, and the user has exactly one row, holding the goals
    submitted. *)
Lemma goals_post_spec u req s t iu :
  method req = "POST" →
  accepting s = true →
  id u ≠ VNull →
  tables (committed s) !! "goals" = Some t →
  goals_table_ok t iu →
  ∃ t' r,
    goals u req s
    = (Return (RenderTemplate "goals.html" [("user", CStr (username u))]),
       Server true
         (Database (<["goals" := t']> (tables (committed s)))
                   (now (committed s))))
    ∧ columns t' = columns t
    ∧ goals_table_ok t' iu
    ∧ filter (λ r', field iu r' = id u) (rows t') = [r]
    ∧ stores_goal t req r.
Proof.
  intros Hpost Hs Hid Ht Hok.
  pose proof (goals_post_run u req s t iu Hpost Hs Ht Hok) as Hrun.
  set (new := proposed_row t (committed s) _) in Hrun.
  pose proof Hok as [Hcols Hiu Hunique Hlen Huniq].
  assert (field iu new = id u) as Hnew_user
    by by apply (proposed_row_field _ _ _ "user_detail_id").
  destruct (upserted_spec t iu goals_set_columns new (id u))
    as (Hlen' & Huniq' & j & r & Hr & Hr_user & Hr_set); try done.
  { unfold goals_set_columns. rewrite !not_elem_of_cons.
    split_and!; try done. apply not_elem_of_nil. }
  { apply proposed_row_length. }
  exists (Table (columns t) (upserted t iu goals_set_columns new)
                (advance_key t)), r.
  split_and!; try done.
  - by eapply unique_in_filter.
  - unfold has_columns, goals_columns in Hcols.
    rewrite !Forall_cons in Hcols.
    destruct Hcols as ([i1 H1] & [i2 H2] & [i3 H3] & [i4 H4] & _).
    unfold stores_goal, goals_set_columns in *. split_and!; intros i Hi.
    + rewrite (Hr_set "sleep_len_goal" i); [|elem_of_literal|done].
      by apply (proposed_row_field _ _ _ "sleep_len_goal").
    + rewrite (Hr_set "better_sleep" i); [|elem_of_literal|done].
      by apply (proposed_row_field _ _ _ "better_sleep").
    + rewrite (Hr_set "intensity" i); [|elem_of_literal|done].
      by apply (proposed_row_field _ _ _ "intensity").
    + rewrite (Hr_set "diet" i); [|elem_of_literal|done].
      by apply (proposed_row_field _ _ _ "diet").
Qed.

Lemma demo_goals_table_ok : goals_table_ok (demo_table "goals") 5.
Proof.
  split.
  - demo_has_columns.
  - by vm_compute.
  - intros j col Hcol.
    do 6 (destruct j as [|j]; [injection Hcol as <-; by split|]).
    done.
  - vm_compute. by repeat constructor.
  - intros j1 j2 r1 r2 H1 H2 _.
    destruct j1 as [|j1], j2 as [|j2]; done.
Qed.

(** ** The route /register keeps user names apart *)

Lemma filter_nil_Forall {A} (P : A → Prop) `{∀ x, Decision (P x)}
    (l : list A) :
  filter P l = [] → Forall (λ x, ¬ P x) l.
Proof.
  intros Hnil. apply Forall_forall. intros x Hx HP.
  by apply (filter_nil_not_elem_of P l x).
Qed.

(** X5.  The route /register keeps the user names distinct: whatever the
    request, and however the route ends (page, redirect or exception), if no
    two stored users had the same name before, no two have the same name
    afterwards. *)
Lemma register_keeps_usernames_unique
    (generate_password_hash : string → string) req s out s' t i :
  tables (committed s) !! "user_detail" = Some t →
  col_index t "user_detail_username" = Some i →
  unique_in i (rows t) →
  register generate_password_hash req s = (out, s') →
  ∃ t', tables (committed s') !! "user_detail" = Some t'
        ∧ columns t' = columns t
        ∧ unique_in i (rows t').
Proof.
  intros Ht Hi Huniq. unfold register.
  assert (∃ t', tables (committed s) !! "user_detail" = Some t'
                ∧ columns t' = columns t ∧ unique_in i (rows t')) as Hsame
    by by exists t.
  destruct (bool_decide (method req = "POST")); [|by intros [= _ <-]].
  rewrite py_bind_run. unfold form_item.
  destruct (form req !! "username") as [name|]; [|by intros [= _ <-]].
  rewrite py_ret_run, py_bind_run.
  destruct (form req !! "password") as [password|]; [|by intros [= _ <-]].
  rewrite py_ret_run, py_bind_run. unfold get_db_connection.
  destruct (accepting s) eqn:Hs; [|by intros [= _ <-]].
  rewrite py_bind_run. unfold execute at 1, exec. cbn [working].
  rewrite (existing_user_query _ _ _ _ Ht Hi), result_bind_Ok.
  destruct (filter _ (rows t)) as [|r rs] eqn:Hfilter;
    [|by intros [= _ <-]].
  cbn [fmap list_fmap fetchone head bool_decide decide_rel].
  rewrite bool_decide_eq_false_2 by by intros [? ?].
  rewrite py_bind_run. unfold execute, exec. cbn [working].
  destruct (exec_insert _ _) as [db'|e] eqn:Hinsert; [|by intros [= _ <-]].
  apply exec_insert_plain_inv in Hinsert as (t0 & Ht0 & Hcols & _ & ->).
  assert (t0 = t) as -> by congruence.
  cbn [mbind result_bind]. cbv [mbind py_bind commit close mret py_ret working].
  intros [= _ <-]. cbn [committed tables].
  eexists. split; [apply lookup_insert_eq|]. split; [done|].
  cbn [rows]. apply unique_in_snoc; [done|].
  erewrite proposed_row_field; [|done|done].
  by apply filter_nil_Forall in Hfilter.
Qed.

(** ** The model on small inputs *)

(** A mean equal to the goal meets it: ratings 3 (newest) and 5, goal 4. *)
Example diet_tips_mean_equals_goal :
  diet_tips [DietRow 2 "soup" 11 "" 3 1; DietRow 1 "rice" 10 "" 5 1]
            [GoalsRow 1 7 4 5 4 1]
  = ["Your Average (4.00) currently meets or is passing your goal!";
     "Your newest (3) is below your goal! Don't let this become a trend."].
Proof. by vm_compute. Qed.

(** The scenario of the specification for workouts: newest intensity 9,
    goal 5. *)
Example workout_tips_scenario :
  workout_tips [WorkoutRow 1 "lift" 100 45 9 "strength" "" 5 1]
               [GoalsRow 1 7 4 5 3 1]
  = ["Your Average intensity (9.00) currently meets or is passing your goal!";
     "Your most recent intensity (9) meets or is above your goal!";
     "Try not to go too intense too often; it's okay to take a break occasionally."].
Proof. by vm_compute. Qed.

Example format_2f_examples :
  Py.format_2f (13 # 2) = "6.50"
  ∧ Py.format_2f (1 # 3) = "0.33"
  ∧ Py.format_2f (2 # 3) = "0.67"
  ∧ Py.format_2f (1 # 8) = "0.12"
  ∧ Py.format_2f (-5 # 2) = "-2.50"
  ∧ Py.format_2f 0 = "0.00".
Proof. by vm_compute. Qed.

Example int_examples :
  Py.int "6" = Some 6
  ∧ Py.int "abc" = None
  ∧ Py.int " 5 " = Some 5
  ∧ Py.int "+4" = Some 4
  ∧ Py.int "1_0" = Some 10
  ∧ Py.int "3.0" = None
  ∧ Py.int "" = None.
Proof. by vm_compute. Qed.

Example valid_rating_examples :
  valid_rating (Some "6") = None
  ∧ valid_rating (Some "abc") = None
  ∧ valid_rating (Some "0") = None
  ∧ valid_rating (Some "") = None
  ∧ valid_rating None = None
  ∧ valid_rating (Some "1") = Some 1
  ∧ valid_rating (Some "5") = Some 5.
Proof. by vm_compute. Qed.

(** A first submission of goals by a user without a row inserts one. *)
Example goals_first_submission :
  rows <$> (tables (committed
              (goals (User (VInt 2) (Some "bob"))
                 (Request "POST"
                    (list_to_map [("duration", "8"); ("quality", "5");
                                  ("intense", "6"); ("diet", "4")]))
                 demo_server).2) !! "goals")
  = Some [[VInt 1; VText "7"; VText "4"; VText "5"; VText "3"; VInt 1];
          [VInt 10; VText "8"; VText "5"; VText "6"; VText "4"; VInt 2]].
Proof. by vm_compute. Qed.

(** A new user name is stored with its hash and answered by the redirect to
    the login page. *)
Example register_new_username :
  (λ r, (r.1, rows <$> (tables (committed r.2) !! "user_detail")))
    (register (λ password, "pbkdf2:sha256$" +:+ password)
       (Request "POST"
          (list_to_map [("username", "bob"); ("password", "secret")]))
       demo_server)
  = (Return (Redirect "/login"),
     Some [[VInt 1; VText "ada"; VText "pbkdf2:sha256$ada"];
           [VInt 10; VText "bob"; VText "pbkdf2:sha256$secret"]]).
Proof. by vm_compute. Qed.

(** ** The tip engine: the properties of the specification *)

(** C1.  Each of [diet_tips], [workout_tips] and [sleep_tips] returns exactly
    the one-element list ["Not enough data yet..."] if and only if the
    entries list is empty or the goals list is empty; when both are
    non-empty that string is not among the tips returned. *)
Theorem tips_not_enough_data_iff :
  ∀ (D : list diet_row) (W : list workout_row) (S : list sleep_row)
    (G : list goals_row),
    (diet_tips D G = [Msg.not_enough] ↔ D = [] ∨ G = [])
    ∧ (workout_tips W G = [Msg.not_enough] ↔ W = [] ∨ G = [])
    ∧ (sleep_tips S G = [Msg.not_enough] ↔ S = [] ∨ G = [])
    ∧ (D ≠ [] ∧ G ≠ [] → Msg.not_enough ∉ diet_tips D G)
    ∧ (W ≠ [] ∧ G ≠ [] → Msg.not_enough ∉ workout_tips W G)
    ∧ (S ≠ [] ∧ G ≠ [] → Msg.not_enough ∉ sleep_tips S G).
Proof.
  intros D W S G. repeat split.
  - destruct D as [|d0 ds], G as [|g0 gs]; auto.
    unfold diet_tips. destruct (diet_loop _) as [a n].
    by destruct (Py.ge _ _), (_ >=? _).
  - intros [-> | ->]; [done|]. by destruct D.
  - destruct W as [|w0 ws], G as [|g0 gs]; auto.
    unfold workout_tips. destruct (work_loop _) as [a n].
    by destruct (Py.ge _ _), (_ >=? intensity _).
  - intros [-> | ->]; [done|]. by destruct W.
  - destruct S as [|s0 ss], G as [|g0 gs]; auto.
    unfold sleep_tips. destruct (sleep_loop _) as [[a b] n].
    by destruct (Py.ge _ _), (_ >=? sleep_len_goal _).
  - intros [-> | ->]; [done|]. by destruct S.
  - intros [HD HG] Hin. destruct D as [|d0 ds], G as [|g0 gs]; try done.
    unfold diet_tips in Hin. destruct (diet_loop _) as [a n].
    destruct (Py.ge _ _), (_ >=? _); refute_message.
  - intros [HW HG] Hin. destruct W as [|w0 ws], G as [|g0 gs]; try done.
    unfold workout_tips in Hin. destruct (work_loop _) as [a n].
    destruct (Py.ge _ _), (_ >=? intensity _);
      try destruct (_ >=? 8); refute_message.
  - intros [HS HG] Hin. destruct S as [|s0 ss], G as [|g0 gs]; try done.
    unfold sleep_tips in Hin. destruct (sleep_loop _) as [[a b] n].
    destruct (Py.ge (Py.truediv a n) _), (_ >=? sleep_len_goal _),
      (Py.ge _ _), (_ >=? better_sleep _); refute_message.
Qed.


(** C3, as stated, fails: the newest intensity is 8 and the caution is not
    among the tips, because the newest intensity is below the goal. *)
Lemma workout_caution_absent_below_goal :
  (∃ w0 ws, workout_8 = w0 :: ws ∧ 8 ≤ workout_intensity w0)
  ∧ goal_intensity_10 ≠ []
  ∧ workout_tips workout_8 goal_intensity_10
    = [Msg.work_avg_below "8.00"; Msg.work_more_weight;
       Msg.work_newest_below "8"; Msg.work_break]
  ∧ Msg.work_too_intense ∉ workout_tips workout_8 goal_intensity_10.
Proof.
  assert (workout_tips workout_8 goal_intensity_10
          = [Msg.work_avg_below "8.00"; Msg.work_more_weight;
             Msg.work_newest_below "8"; Msg.work_break]) as Htips
    by (by vm_compute).
  split; [|split; [|split]].
  - eexists _, _. split; [done|]. simpl. lia.
  - done.
  - done.
  - rewrite Htips. intros Hin. refute_message.
Qed.

(** C3, amended.  When the newest workout's intensity is at least 8 and also
    at least the intensity goal, [workout_tips] includes the caution against
    going too intense. *)
Theorem workout_caution_when_goal_met :
  ∀ (w0 : workout_row) (ws : list workout_row) (g0 : goals_row)
    (gs : list goals_row),
    8 ≤ workout_intensity w0 →
    intensity g0 ≤ workout_intensity w0 →
    Msg.work_too_intense ∈ workout_tips (w0 :: ws) (g0 :: gs).
Proof.
  intros w0 ws g0 gs H8 Hgoal. unfold workout_tips.
  destruct (work_loop _) as [a n].
  assert ((workout_intensity w0 >=? intensity g0) = true) as -> by lia.
  assert ((workout_intensity w0 >=? 8) = true) as -> by lia.
  destruct (Py.ge _ _); set_solver.
Qed.

(** The scenario of the specification: newest intensity 9, goal 5. *)
Lemma workout_caution_when_goal_met_witness :
  Msg.work_too_intense
  ∈ workout_tips [WorkoutRow 1 "lift" 100 45 9 "strength" "" 5 1]
                 [GoalsRow 1 7 4 5 3 1].
Proof.
  apply (workout_caution_when_goal_met
           (WorkoutRow 1 "lift" 100 45 9 "strength" "" 5 1) []
           (GoalsRow 1 7 4 5 3 1) []); simpl; lia.
Defined.

(** The caution is given in no other case. *)
Lemma workout_caution_only_when_goal_met w0 ws g0 gs :
  Msg.work_too_intense ∈ workout_tips (w0 :: ws) (g0 :: gs) →
  8 ≤ workout_intensity w0 ∧ intensity g0 ≤ workout_intensity w0.
Proof.
  unfold workout_tips. destruct (work_loop _) as [a n].
  destruct (_ >=? intensity _) eqn:Hgoal; [destruct (_ >=? 8) eqn:H8|];
    intros Hin.
  - lia.
  - destruct (Py.ge _ _); refute_message.
  - destruct (Py.ge _ _); refute_message.
Qed.

(** C4.  Two sleep entries, newest first, with durations 6 and 7 and
    qualities 3 and 4, against a goal of length 7 and quality 4: [sleep_tips]
    returns exactly five strings, the below-goal average duration, the
    below-goal newest duration, the below-goal average quality, the advice
    on screens, and the below-goal newest quality. *)
Theorem sleep_tips_scenario :
  ∀ (id1 id2 date1 date2 user1 user2 : Z) (log1 log2 : string)
    (gid gint gdiet guser : Z),
    sleep_tips [SleepRow id1 6 date1 log1 3 user1;
                SleepRow id2 7 date2 log2 4 user2]
               [GoalsRow gid 7 4 gint gdiet guser]
    = ["Your Average length of sleep (6.50) is currently below your goal!";
       "Your newest length of sleep (6) is below your goal! Don't let this become a trend.";
       "Your average quality of sleep (3.50) is currently below your goal!";
       "For better sleep quality, try not to use any screens for at least an hour before bed.";
       "Your most recent sleep (3) is below your goal!"]
    ∧ length (sleep_tips [SleepRow id1 6 date1 log1 3 user1;
                          SleepRow id2 7 date2 log2 4 user2]
                         [GoalsRow gid 7 4 gint gdiet guser]) = 5%nat
    ∧ sleep_tips [SleepRow id1 6 date1 log1 3 user1;
                  SleepRow id2 7 date2 log2 4 user2]
                 [GoalsRow gid 7 4 gint gdiet guser]
      = [Msg.sleep_len_avg_below (Py.format_2f (13 # 2));
         Msg.sleep_len_newest_below (Py.str 6);
         Msg.sleep_qual_avg_below (Py.format_2f (7 # 2));
         Msg.sleep_screens;
         Msg.sleep_qual_newest_below (Py.str 3)].
Proof.
  intros. by vm_compute.
Qed.


(** ** The stores: the properties of the specification *)



(** C10.  With the server reachable, the feedback listing never returns a row
    with an absent rating: every row it returns has seven fields, the fifth
    is the stored rating, or 0 where the stored rating is NULL; and the
    listing of a database is the listing of the same database with its NULL
    ratings stored as 0.  The listing is returned whenever habits.feedback
    has the columns the query reads and the limit is not negative. *)
Theorem feedback_listing_rating_never_absent :
  ∀ (s : server) (u : user) (lim : Z),
    accepting s = true →
    (∀ t, tables (committed s) !! "feedback" = Some t →
          has_columns t feedback_listing_columns → 0 ≤ lim →
          ∃ rs, _get_feedback_for_user u lim s = (Return rs, s))
    ∧ (∀ rs s', _get_feedback_for_user u lim s = (Return rs, s') →
         Forall (λ out, length out = 7%nat ∧ field 4 out ≠ VNull) rs
         ∧ ∃ t ir stored,
             tables (committed s) !! "feedback" = Some t
             ∧ col_index t "feedback_rating" = Some ir
             ∧ stored ⊆ rows t
             ∧ Forall2 (λ r out,
                          field 4 out = coalesce (field ir r) (VInt 0))
                       stored rs)
    ∧ (_get_feedback_for_user u lim
         (Server (accepting s) (ratings_zeroed (committed s)))).1
      = (_get_feedback_for_user u lim s).1.
Proof.
  intros s u lim Hs. split; [|split].
  - intros t Ht Hcols Hlim.
    rewrite _get_feedback_for_user_run by done.
    unfold has_columns, feedback_listing_columns in Hcols.
    rewrite !Forall_cons in Hcols.
    destruct Hcols as ([i1 H1] & [i2 H2] & [i3 H3] & [i4 H4] & [ir Hir]
                       & [i6 H6] & [i7 H7] & [k Hk] & _).
    unfold exec_select, select_rows, feedback_query, eval_projection,
      eval_exprs, eval_expr, order_by, limit.
    cbn [sel_from sel_where sel_what sel_order sel_limit fst snd].
    rewrite (table_of_Some _ _ _ Ht), result_bind_Ok.
    rewrite (column_of_Some _ _ _ Hk), result_bind_Ok.
    rewrite (column_of_Some _ _ _ H1), (column_of_Some _ _ _ H2),
      (column_of_Some _ _ _ H3), (column_of_Some _ _ _ H4),
      (column_of_Some _ _ _ Hir), (column_of_Some _ _ _ H6),
      (column_of_Some _ _ _ H7), !result_bind_Ok.
    assert ((lim <? 0) = false) as -> by lia.
    rewrite !result_bind_Ok. eauto.
  - intros rs s'. rewrite _get_feedback_for_user_run by done.
    destruct (exec_select _ _) as [rs'|] eqn:Hrs; [|done].
    intros [= -> <-].
    apply exec_select_ordered_inv in Hrs
      as (t & k & i & proj & limited & Ht & Hk & Hi & Hproj & Hlim & ->).
    apply (eval_projection_feedback t u lim) in Hproj
      as (i1 & i2 & i3 & i4 & ir & i6 & i7 & H1 & H2 & H3 & H4 & Hir & H6
          & H7 & ->).
    split.
    + apply Forall_fmap, Forall_true. intros r. split; [done|].
      by apply coalesce_not_null.
    + exists t, ir, limited. split_and!; try done.
      * unfold limit in Hlim. destruct (lim <? 0); [done|].
        injection Hlim as <-. intros r Hr%subseteq_take.
        rewrite merge_sort_Permutation in Hr.
        by apply list_elem_of_filter in Hr as [_ ?].
      * apply Forall2_fmap_r, Forall_Forall2_diag, Forall_true. by intros r.
  - rewrite !_get_feedback_for_user_run by done. simpl.
    by rewrite exec_select_ratings_zeroed.
Qed.

(** On the demonstration database: the row stored without a rating is
    listed with the rating 0. *)
Lemma feedback_listing_rating_never_absent_witness :
  _get_feedback_for_user ada 20 demo_server
  = (Return [[VInt 2; VText "praise"; VText "sleep"; VText "nice"; VInt 5;
              VNull; VTime 101];
             [VInt 1; VText "idea"; VText "home"; VText "more charts";
              VInt 0; VNull; VTime 100]],
     demo_server)
  ∧ Forall (λ out, length out = 7%nat ∧ field 4 out ≠ VNull)
      [[VInt 2; VText "praise"; VText "sleep"; VText "nice"; VInt 5;
        VNull; VTime 101];
       [VInt 1; VText "idea"; VText "home"; VText "more charts";
        VInt 0; VNull; VTime 100]].
Proof.
  destruct (feedback_listing_rating_never_absent demo_server ada 20 eq_refl)
    as (_ & Hrows & _).
  assert (_get_feedback_for_user ada 20 demo_server
          = (Return [[VInt 2; VText "praise"; VText "sleep"; VText "nice";
                      VInt 5; VNull; VTime 101];
                     [VInt 1; VText "idea"; VText "home";
                      VText "more charts"; VInt 0; VNull; VTime 100]],
             demo_server)) as Hrun by (by vm_compute).
  split; [done|]. by apply Hrows in Hrun as [? _].
Defined.

(** C7.  A registration (POST to /register) with a user name that a stored
    user already has is answered with the sign-up page and the error
    "Username taken!", and leaves the database as it was: no row is
    inserted. *)
Theorem register_existing_username_rejected :
  ∀ (generate_password_hash : string → string) (s : server) (req : request)
    (name password : string) (t : table) (i : nat) (r : tuple),
    method req = "POST" →
    form req !! "username" = Some name →
    form req !! "password" = Some password →
    accepting s = true →
    tables (committed s) !! "user_detail" = Some t →
    col_index t "user_detail_username" = Some i →
    r ∈ rows t →
    field i r = VText name →
    register generate_password_hash req s
    = (Return (RenderTemplate "signup.html"
                 [("error", CStr (Some "Username taken!"))]), s).
Proof.
  intros hash s req name password t i r Hpost Hname Hpassword Hs Ht Hi Hr
    Hfield.
  unfold register. rewrite bool_decide_eq_true_2 by done.
  rewrite py_bind_run, (form_item_run _ _ _ _ Hname).
  rewrite py_bind_run, (form_item_run _ _ _ _ Hpassword).
  rewrite py_bind_run, get_db_connection_accepting by done.
  rewrite py_bind_run. unfold execute, exec. cbn [working].
  rewrite (existing_user_query _ _ _ _ Ht Hi), result_bind_Ok.
  assert (r ∈ filter (λ r, sql_eq (field i r) (VText name) = true) (rows t))
    as Hin.
  { apply list_elem_of_filter. split; [|done].
    apply sql_eq_true. by rewrite Hfield. }
  destruct (filter _ _) as [|r' rs]; [by apply elem_of_nil in Hin|].
  done.
Qed.

(** On the demonstration database: a second "ada". *)
Lemma register_existing_username_rejected_witness :
  register (λ password, "pbkdf2:sha256$" +:+ password)
           (Request "POST"
              (list_to_map [("username", "ada"); ("password", "secret")]))
           demo_server
  = (Return (RenderTemplate "signup.html"
               [("error", CStr (Some "Username taken!"))]), demo_server).
Proof.
  apply (register_existing_username_rejected _ demo_server _ "ada" "secret"
           (demo_table "user_detail") 1%nat [VInt 1; VText "ada"; VText "pbkdf2:sha256$ada"]);
    try done.
  by apply list_elem_of_here.
Defined.





(** ** More on the tip functions *)

Lemma diet_newest_above_below f g :
  Msg.diet_newest_above f ≠ Msg.diet_newest_below g.
Proof.
  exact (message_tail_neq
    "Your newest (" f ") is above your goal! Ke" "ep it up!"
    "Your newest (" g ") is below your goal! Don't let this become"
    " a trend."
    eq_refl ltac:(discriminate)).
Qed.

Lemma sleep_len_newest_above_below f g :
  Msg.sleep_len_newest_above f ≠ Msg.sleep_len_newest_below g.
Proof.
  exact (message_tail_neq
    "Your newest length of sleep (" f ") is above your goal! Ke" "ep it up!"
    "Your newest length of sleep (" g
    ") is below your goal! Don't let this become" " a trend."
    eq_refl ltac:(discriminate)).
Qed.

Lemma sleep_qual_newest_meets_below f g :
  Msg.sleep_qual_newest_meets f ≠ Msg.sleep_qual_newest_below g.
Proof.
  exact (message_tail_neq
    "Your most recent sleep (" f ") meets or is abov" "e your goal!"
    "Your most recent sleep (" g ") is belo" "w your goal!"
    eq_refl ltac:(discriminate)).
Qed.

(** As [refute_message], for the messages on the newest entry. *)
Ltac refute_newest_message :=
  repeat match goal with
  | H : _ ∈ [] |- _ => by apply elem_of_nil in H
  | H : _ ∈ _ :: _ |- _ => apply elem_of_cons in H as [H|H]
  | H : _ ∈ _ ++ _ |- _ => apply elem_of_app in H as [H|H]
  | H : _ = _ |- _ =>
      first [ discriminate H
            | by apply diet_newest_above_below in H
            | by symmetry in H; apply diet_newest_above_below in H
            | by apply sleep_len_newest_above_below in H
            | by symmetry in H; apply sleep_len_newest_above_below in H
            | by apply sleep_qual_newest_meets_below in H
            | by symmetry in H; apply sleep_qual_newest_meets_below in H ]
  end.

Lemma newest_verdict_above above below newest goal tips :
  goal ≤ newest →
  above (Py.str newest) ∈ tips → (∀ f, below f ∉ tips) →
  newest_verdict above below newest goal tips.
Proof.
  intros Hle Hin Hout. unfold newest_verdict, emits. split_and!.
  - split; [done|]. intros _. by exists (Py.str newest).
  - split; [|lia]. intros [f Hf]. by apply Hout in Hf.
  - done.
  - lia.
Qed.

Lemma newest_verdict_below above below newest goal tips :
  newest < goal →
  below (Py.str newest) ∈ tips → (∀ f, above f ∉ tips) →
  newest_verdict above below newest goal tips.
Proof.
  intros Hlt Hin Hout. unfold newest_verdict, emits. split_and!.
  - split; [|lia]. intros [f Hf]. by apply Hout in Hf.
  - split; [done|]. intros _. by exists (Py.str newest).
  - lia.
  - done.
Qed.

(** X1.  On a non-empty entries list and a non-empty goals list, each tip
    function emits its "above" (or "meets") message for the newest entry,
    the first of the list, if and only if that entry's value is greater
    than or equal to the goal, and its "below" message otherwise; the
    message prints the value.  [sleep_tips] does so for the duration and
    for the quality. *)
Theorem tips_newest_above_iff_ge :
  ∀ (d0 : diet_row) (ds : list diet_row) (w0 : workout_row)
    (ws : list workout_row) (s0 : sleep_row) (ss : list sleep_row)
    (g0 : goals_row) (gs : list goals_row),
    newest_verdict Msg.diet_newest_above Msg.diet_newest_below
      (diet_rating d0) (diet g0) (diet_tips (d0 :: ds) (g0 :: gs))
    ∧ newest_verdict Msg.work_newest_meets Msg.work_newest_below
        (workout_intensity w0) (intensity g0)
        (workout_tips (w0 :: ws) (g0 :: gs))
    ∧ newest_verdict Msg.sleep_len_newest_above Msg.sleep_len_newest_below
        (sleep_duration s0) (sleep_len_goal g0)
        (sleep_tips (s0 :: ss) (g0 :: gs))
    ∧ newest_verdict Msg.sleep_qual_newest_meets Msg.sleep_qual_newest_below
        (sleep_rating s0) (better_sleep g0)
        (sleep_tips (s0 :: ss) (g0 :: gs)).
Proof.
  intros. split_and!.
  - unfold diet_tips. destruct (diet_loop _) as [a n].
    destruct (Z.geb_spec (diet_rating d0) (diet g0)) as [Hge|Hlt].
    + apply newest_verdict_above; [lia| |].
      * destruct (Py.ge _ _); set_solver.
      * intros f Hin. destruct (Py.ge _ _); refute_newest_message.
    + apply newest_verdict_below; [lia| |].
      * destruct (Py.ge _ _); set_solver.
      * intros f Hin. destruct (Py.ge _ _); refute_newest_message.
  - unfold workout_tips. destruct (work_loop _) as [a n].
    destruct (Z.geb_spec (workout_intensity w0) (intensity g0)) as [Hge|Hlt].
    + apply newest_verdict_above; [lia| |].
      * destruct (Py.ge _ _); set_solver.
      * intros f Hin.
        destruct (Py.ge _ _), (_ >=? 8); refute_newest_message.
    + apply newest_verdict_below; [lia| |].
      * destruct (Py.ge _ _); set_solver.
      * intros f Hin. destruct (Py.ge _ _); refute_newest_message.
  - unfold sleep_tips. destruct (sleep_loop _) as [[a b] n].
    destruct (Z.geb_spec (sleep_duration s0) (sleep_len_goal g0))
      as [Hge|Hlt].
    + apply newest_verdict_above; [lia| |].
      * destruct (Py.ge _ _); set_solver.
      * intros f Hin.
        destruct (Py.ge (Py.truediv a n) _), (Py.ge _ _),
          (_ >=? better_sleep _); refute_newest_message.
    + apply newest_verdict_below; [lia| |].
      * destruct (Py.ge _ _); set_solver.
      * intros f Hin.
        destruct (Py.ge (Py.truediv a n) _), (Py.ge _ _),
          (_ >=? better_sleep _); refute_newest_message.
  - unfold sleep_tips. destruct (sleep_loop _) as [[a b] n].
    destruct (Z.geb_spec (sleep_rating s0) (better_sleep g0)) as [Hge|Hlt].
    + apply newest_verdict_above; [lia| |].
      * destruct (Py.ge (Py.truediv a n) _), (_ >=? sleep_len_goal _),
          (Py.ge _ _); set_solver.
      * intros f Hin.
        destruct (Py.ge (Py.truediv a n) _), (_ >=? sleep_len_goal _),
          (Py.ge _ _); refute_newest_message.
    + apply newest_verdict_below; [lia| |].
      * destruct (Py.ge (Py.truediv a n) _), (_ >=? sleep_len_goal _),
          (Py.ge _ _); set_solver.
      * intros f Hin.
        destruct (Py.ge (Py.truediv a n) _), (_ >=? sleep_len_goal _),
          (Py.ge _ _); refute_newest_message.
Qed.

(** X2.  The caution against going too intense is among the workout tips if
    and only if the newest workout's intensity is at least 8 and at least
    the intensity goal. *)
Theorem workout_caution_iff :
  ∀ (w0 : workout_row) (ws : list workout_row) (g0 : goals_row)
    (gs : list goals_row),
    Msg.work_too_intense ∈ workout_tips (w0 :: ws) (g0 :: gs)
    ↔ 8 ≤ workout_intensity w0 ∧ intensity g0 ≤ workout_intensity w0.
Proof.
  intros w0 ws g0 gs. unfold workout_tips. destruct (work_loop _) as [a n].
  destruct (Z.geb_spec (workout_intensity w0) (intensity g0)) as [Hgoal|Hgoal];
    [destruct (Z.geb_spec (workout_intensity w0) 8) as [H8|H8]|].
  - split; [lia|]. intros _. destruct (Py.ge _ _); set_solver.
  - split; [|lia]. intros Hin. destruct (Py.ge _ _); refute_message.
  - split; [|lia]. intros Hin. destruct (Py.ge _ _); refute_message.
Qed.

(** X3.  How many tips there are, on non-empty lists: [diet_tips] gives two;
    [sleep_tips] gives four, and a fifth (the advice on screens) exactly
    when the average quality is below its goal; [workout_tips] gives two to
    four: one more when the average intensity is below the goal, and one
    more when the newest intensity is below the goal or at least 8. *)
Theorem tips_count :
  ∀ (d0 : diet_row) (ds : list diet_row) (w0 : workout_row)
    (ws : list workout_row) (s0 : sleep_row) (ss : list sleep_row)
    (g0 : goals_row) (gs : list goals_row),
    length (diet_tips (d0 :: ds) (g0 :: gs)) = 2%nat
    ∧ length (sleep_tips (s0 :: ss) (g0 :: gs))
      = (if Py.ge (mean (sleep_rating <$> s0 :: ss)) (better_sleep g0)
         then 4 else 5)%nat
    ∧ length (workout_tips (w0 :: ws) (g0 :: gs))
      = (2 + (if Py.ge (mean (workout_intensity <$> w0 :: ws)) (intensity g0)
              then 0 else 1)
           + (if workout_intensity w0 >=? intensity g0
              then (if workout_intensity w0 >=? 8 then 1 else 0)
              else 1))%nat.
Proof.
  intros. split_and!.
  - unfold diet_tips. destruct (diet_loop _) as [a n].
    by destruct (Py.ge _ _), (_ >=? _).
  - unfold sleep_tips. rewrite sleep_loop_spec. cbv beta iota zeta.
    rewrite !truediv_mean.
    by destruct (Py.ge (mean (sleep_duration <$> _)) _),
      (_ >=? sleep_len_goal _), (Py.ge _ _), (_ >=? better_sleep _).
  - unfold workout_tips. rewrite work_loop_spec. cbv beta iota zeta.
    rewrite truediv_mean.
    by destruct (Py.ge _ _), (workout_intensity w0 >=? intensity g0),
      (workout_intensity w0 >=? 8).
Qed.

Lemma zsum_Permutation (xs ys : list Z) : xs ≡ₚ ys → zsum xs = zsum ys.
Proof.
  induction 1 as [|x xs ys _ IH|x y xs|xs ys zs _ IH1 _ IH2];
    rewrite ?zsum_cons; try done; lia.
Qed.

Lemma mean_Permutation (xs ys : list Z) : xs ≡ₚ ys → mean xs = mean ys.
Proof.
  intros Hperm. unfold mean.
  by rewrite (zsum_Permutation _ _ Hperm), (Permutation_length Hperm).
Qed.

(** X4.  What the tip functions read.  The tips are the same for two
    entries lists whose newest entries agree on the column read and whose
    older entries carry the same values of that column in any order, and
    for two goals lists whose first rows agree on the goal read:
    [diet_tips] reads the ratings and the diet goal, [workout_tips] the
    intensities and the intensity goal, [sleep_tips] the durations and
    ratings and the two sleep goals.  No other column, no later goals row
    and no order among the older entries has any effect. *)
Theorem tips_read_only_their_columns :
  (∀ d0 ds g0 gs d0' ds' g0' gs',
     diet_rating d0 = diet_rating d0' →
     diet_rating <$> ds ≡ₚ diet_rating <$> ds' →
     diet g0 = diet g0' →
     diet_tips (d0 :: ds) (g0 :: gs) = diet_tips (d0' :: ds') (g0' :: gs'))
  ∧ (∀ w0 ws g0 gs w0' ws' g0' gs',
       workout_intensity w0 = workout_intensity w0' →
       workout_intensity <$> ws ≡ₚ workout_intensity <$> ws' →
       intensity g0 = intensity g0' →
       workout_tips (w0 :: ws) (g0 :: gs)
       = workout_tips (w0' :: ws') (g0' :: gs'))
  ∧ (∀ s0 ss g0 gs s0' ss' g0' gs',
       sleep_duration s0 = sleep_duration s0' →
       sleep_rating s0 = sleep_rating s0' →
       sleep_duration <$> ss ≡ₚ sleep_duration <$> ss' →
       sleep_rating <$> ss ≡ₚ sleep_rating <$> ss' →
       sleep_len_goal g0 = sleep_len_goal g0' →
       better_sleep g0 = better_sleep g0' →
       sleep_tips (s0 :: ss) (g0 :: gs) = sleep_tips (s0' :: ss') (g0' :: gs')).
Proof.
  split_and!.
  - intros d0 ds g0 gs d0' ds' g0' gs' Hnewest Hperm Hgoal.
    unfold diet_tips. rewrite !diet_loop_spec. cbv beta iota zeta.
    rewrite !truediv_mean, !fmap_cons, Hnewest, Hgoal.
    by rewrite (mean_Permutation (_ :: (diet_rating <$> ds))
                  (diet_rating d0' :: (diet_rating <$> ds')))
      by by constructor.
  - intros w0 ws g0 gs w0' ws' g0' gs' Hnewest Hperm Hgoal.
    unfold workout_tips. rewrite !work_loop_spec. cbv beta iota zeta.
    rewrite !truediv_mean, !fmap_cons, Hnewest, Hgoal.
    by rewrite (mean_Permutation (_ :: (workout_intensity <$> ws))
                  (workout_intensity w0' :: (workout_intensity <$> ws')))
      by by constructor.
  - intros s0 ss g0 gs s0' ss' g0' gs' Hlen Hqual Hperm_len Hperm_qual
      Hgoal_len Hgoal_qual.
    unfold sleep_tips. rewrite !sleep_loop_spec. cbv beta iota zeta.
    rewrite !truediv_mean, !fmap_cons, Hlen, Hqual, Hgoal_len, Hgoal_qual.
    rewrite (mean_Permutation (_ :: (sleep_duration <$> ss))
               (sleep_duration s0' :: (sleep_duration <$> ss')))
      by by constructor.
    by rewrite (mean_Permutation (_ :: (sleep_rating <$> ss))
                  (sleep_rating s0' :: (sleep_rating <$> ss')))
      by by constructor.
Qed.

(** Two diet lists that differ in names, dates, notes and the order of the
    older meals, and two goals lists that differ beyond the diet goal of the
    first row. *)
Lemma tips_read_only_their_columns_witness :
  diet_tips [DietRow 3 "soup" 12 "" 3 1; DietRow 2 "rice" 11 "" 5 1;
             DietRow 1 "stew" 10 "" 2 1]
            [GoalsRow 1 7 4 5 4 1]
  = diet_tips [DietRow 9 "salad" 40 "light" 3 1; DietRow 7 "eggs" 38 "" 2 1;
               DietRow 8 "oats" 39 "" 5 1]
              [GoalsRow 2 8 5 6 4 1; GoalsRow 3 1 1 1 1 1].
Proof.
  destruct tips_read_only_their_columns as (Hdiet & _).
  apply Hdiet; [done| |done]. simpl. apply perm_swap.
Defined.

(** ** More on the route /register *)

(** A POST with both fields, run on a reachable server whose user table has
    the user-name column. *)
Lemma register_post_run (generate_password_hash : string → string)
    req s name password t i :
  method req = "POST" →
  form req !! "username" = Some name →
  form req !! "password" = Some password →
  accepting s = true →
  tables (committed s) !! "user_detail" = Some t →
  col_index t "user_detail_username" = Some i →
  register generate_password_hash req s
  = match filter (λ r, sql_eq (field i r) (VText name) = true) (rows t) with
    | _ :: _ =>
        (Return (RenderTemplate "signup.html"
                   [("error", CStr (Some "Username taken!"))]), s)
    | [] =>
        match exec_insert (committed s)
                (Insert "user_detail"
                   [("user_detail_username", VText name);
                    ("user_detail_password",
                     VText (generate_password_hash password))]
                   None) with
        | Ok db => (Return (Redirect "/login"), Server true db)
        | Fail e => (Raise (Psycopg2Error e), s)
        end
    end.
Proof.
  intros Hpost Hname Hpassword Hs Ht Hi.
  unfold register. rewrite bool_decide_eq_true_2 by done.
  rewrite py_bind_run, (form_item_run _ _ _ _ Hname).
  rewrite py_bind_run, (form_item_run _ _ _ _ Hpassword).
  rewrite py_bind_run, get_db_connection_accepting by done.
  rewrite py_bind_run. unfold execute at 1, exec. cbn [working].
  rewrite (existing_user_query _ _ _ _ Ht Hi), result_bind_Ok.
  destruct (filter _ (rows t)) as [|r rs]; [|done].
  cbn [fmap list_fmap fetchone head].
  rewrite bool_decide_eq_false_2 by by intros [? ?].
  rewrite py_bind_run. unfold execute, exec. cbn [working].
  destruct (exec_insert _ _) as [db|e]; [|done].
  cbn [mbind result_bind].
  cbv [mbind py_bind commit close mret py_ret working]. by rewrite Hs.
Qed.

(** The INSERT of [register] for a name no stored user has, on a table
    whose only unique constraint (if any) is on the user name. *)
Lemma register_insert_run db t iu ip name hash :
  tables db !! "user_detail" = Some t →
  col_index t "user_detail_username" = Some iu →
  col_index t "user_detail_password" = Some ip →
  (∀ j col, columns t !! j = Some col → col_unique col = true → j = iu) →
  Forall (λ r, field iu r ≠ VText name) (rows t) →
  exec_insert db
    (Insert "user_detail"
       [("user_detail_username", VText name);
        ("user_detail_password", VText hash)] None)
  = Ok (Database
          (<["user_detail" :=
               Table (columns t)
                 (rows t ++
                  [proposed_row t db
                     [("user_detail_username", VText name);
                      ("user_detail_password", VText hash)]])
                 (advance_key t)]> (tables db))
          (now db)).
Proof.
  intros Ht Hiu Hip Hunique Hfree.
  apply exec_insert_plain; [done| |].
  - unfold has_columns. cbn [fmap list_fmap fst].
    repeat (apply Forall_cons_2; [by eexists|]). apply Forall_nil_2.
  - apply violated_None. intros j col Hcol Hu.
    apply (Hunique j col Hcol) in Hu as ->.
    erewrite proposed_row_field; [|done|done].
    eapply Forall_impl; [exact Hfree|]. intros r Hr Heq. simpl in *.
    apply sql_eq_true in Heq as [Heq _]. done.
Qed.

(** X6.  A registration (POST to /register) with a user name that no stored
    user has, on a reachable server whose user table has no unique
    constraint but possibly one on the user name: the route answers with
    the redirect to /login, and the user table has exactly one more row,
    with the name submitted and, as its password, what
    [generate_password_hash] makes of the password submitted. *)
Theorem register_new_username_stored :
  ∀ (generate_password_hash : string → string) (s : server) (req : request)
    (name password : string) (t : table) (iu ip : nat),
    method req = "POST" →
    form req !! "username" = Some name →
    form req !! "password" = Some password →
    accepting s = true →
    tables (committed s) !! "user_detail" = Some t →
    col_index t "user_detail_username" = Some iu →
    col_index t "user_detail_password" = Some ip →
    (∀ j col, columns t !! j = Some col → col_unique col = true → j = iu) →
    Forall (λ r, field iu r ≠ VText name) (rows t) →
    ∃ new : tuple,
      register generate_password_hash req s
      = (Return (Redirect "/login"),
         Server true
           (Database
              (<["user_detail" := Table (columns t) (rows t ++ [new])
                                    (advance_key t)]> (tables (committed s)))
              (now (committed s))))
      ∧ field iu new = VText name
      ∧ field ip new = VText (generate_password_hash password).
Proof.
  intros hash s req name password t iu ip Hpost Hname Hpassword Hs Ht Hiu Hip
    Hunique Hfree.
  eexists. split_and!.
  - rewrite (register_post_run hash req s name password t iu) by done.
    rewrite filter_none.
    + by erewrite register_insert_run.
    + eapply Forall_impl; [exact Hfree|]. intros r Hr Heq. simpl in *.
      by apply sql_eq_true in Heq as [Heq _].
  - by erewrite proposed_row_field.
  - by erewrite proposed_row_field.
Qed.

(** On the demonstration database: "bob" registers. *)
Lemma register_new_username_stored_witness :
  ∃ new : tuple,
    register (λ password, "pbkdf2:sha256$" +:+ password)
      (Request "POST"
         (list_to_map [("username", "bob"); ("password", "secret")]))
      demo_server
    = (Return (Redirect "/login"),
       Server true
         (Database
            (<["user_detail" :=
                 Table (columns (demo_table "user_detail"))
                   (rows (demo_table "user_detail") ++ [new])
                   (advance_key (demo_table "user_detail"))]>
               (tables (committed demo_server)))
            (now (committed demo_server))))
    ∧ field 1 new = VText "bob"
    ∧ field 2 new = VText "pbkdf2:sha256$secret".
Proof.
  destruct (register_new_username_stored
              (λ password, "pbkdf2:sha256$" +:+ password) demo_server
              (Request "POST"
                 (list_to_map [("username", "bob"); ("password", "secret")]))
              "bob" "secret" (demo_table "user_detail") 1%nat 2%nat)
    as (new & Hrun & Hname & Hpassword); try done.
  - intros j col Hcol Hu.
    do 3 (destruct j as [|j]; [by injection Hcol as <-|]). done.
  - vm_compute. by repeat constructor.
  - by exists new.
Defined.

(** X7.  A POST to /register without the field [username], or with it and
    without the field [password], raises the error of the missing key
    ([request.form[...]]), before any connection is opened: the database
    is as it was. *)
Theorem register_missing_field_raises :
  ∀ (generate_password_hash : string → string) (s : server) (req : request),
    method req = "POST" →
    (form req !! "username" = None →
     register generate_password_hash req s
     = (Raise (BadRequestKeyError "username"), s))
    ∧ (is_Some (form req !! "username") →
       form req !! "password" = None →
       register generate_password_hash req s
       = (Raise (BadRequestKeyError "password"), s)).
Proof.
  intros hash s req Hpost. unfold register.
  rewrite bool_decide_eq_true_2 by done. split.
  - intros Hname. rewrite py_bind_run. unfold form_item. by rewrite Hname.
  - intros [name Hname] Hpassword.
    rewrite py_bind_run, (form_item_run _ _ _ _ Hname).
    rewrite py_bind_run. unfold form_item. by rewrite Hpassword.
Qed.

(** Also when the server cannot be reached. *)
Lemma register_missing_field_raises_witness :
  register (λ password, password)
    (Request "POST" (list_to_map [("username", "bob")]))
    (Server false demo_database)
  = (Raise (BadRequestKeyError "password"), Server false demo_database).
Proof.
  destruct (register_missing_field_raises (λ password, password)
              (Server false demo_database)
              (Request "POST" (list_to_map [("username", "bob")])) eq_refl)
    as [_ Hpassword].
  apply Hpassword; [by eexists|done].
Defined.

(** X8.  Registering the same user name twice: after a registration that
    stored a new user (as in X6), a second POST with the same user name,
    whatever the password, is answered with "Username taken!" and leaves
    the database as the first left it. *)
Theorem register_twice_second_rejected :
  ∀ (generate_password_hash : string → string) (s : server)
    (req1 req2 : request) (name password1 password2 : string) (t : table)
    (iu ip : nat),
    method req1 = "POST" →
    form req1 !! "username" = Some name →
    form req1 !! "password" = Some password1 →
    method req2 = "POST" →
    form req2 !! "username" = Some name →
    form req2 !! "password" = Some password2 →
    accepting s = true →
    tables (committed s) !! "user_detail" = Some t →
    col_index t "user_detail_username" = Some iu →
    col_index t "user_detail_password" = Some ip →
    (∀ j col, columns t !! j = Some col → col_unique col = true → j = iu) →
    Forall (λ r, field iu r ≠ VText name) (rows t) →
    ∃ s1 : server,
      register generate_password_hash req1 s = (Return (Redirect "/login"), s1)
      ∧ register generate_password_hash req2 s1
        = (Return (RenderTemplate "signup.html"
                     [("error", CStr (Some "Username taken!"))]), s1).
Proof.
  intros hash s req1 req2 name password1 password2 t iu ip Hpost1 Hname1
    Hpassword1 Hpost2 Hname2 Hpassword2 Hs Ht Hiu Hip Hunique Hfree.
  eexists. split.
  - rewrite (register_post_run hash req1 s name password1 t iu) by done.
    rewrite filter_none.
    + by erewrite register_insert_run.
    + eapply Forall_impl; [exact Hfree|]. intros r Hr Heq. simpl in *.
      by apply sql_eq_true in Heq as [Heq _].
  - erewrite (register_post_run hash req2 _ name password2 _ iu);
      [|done|done|done|done|apply lookup_insert_eq|done].
    cbn [rows]. rewrite filter_app, filter_cons, decide_True.
    + by destruct (filter _ (rows t)).
    + apply sql_eq_true. by erewrite proposed_row_field.
Qed.

(** On the demonstration database: "bob" registers twice. *)
Lemma register_twice_second_rejected_witness :
  ∃ s1 : server,
    register (λ password, "pbkdf2:sha256$" +:+ password)
      (Request "POST"
         (list_to_map [("username", "bob"); ("password", "secret")]))
      demo_server
    = (Return (Redirect "/login"), s1)
    ∧ register (λ password, "pbkdf2:sha256$" +:+ password)
        (Request "POST"
           (list_to_map [("username", "bob"); ("password", "other")]))
        s1
      = (Return (RenderTemplate "signup.html"
                   [("error", CStr (Some "Username taken!"))]), s1).
Proof.
  apply (register_twice_second_rejected
           (λ password, "pbkdf2:sha256$" +:+ password) demo_server
           (Request "POST"
              (list_to_map [("username", "bob"); ("password", "secret")]))
           (Request "POST"
              (list_to_map [("username", "bob"); ("password", "other")]))
           "bob" "secret" "other" (demo_table "user_detail") 1%nat 2%nat);
    try done.
  - intros j col Hcol Hu.
    do 3 (destruct j as [|j]; [by injection Hcol as <-|]). done.
  - vm_compute. by repeat constructor.
Defined.

(** On the demonstration database, after "bob" registers. *)
Lemma register_keeps_usernames_unique_witness :
  ∃ t', tables (committed
          (register (λ password, "pbkdf2:sha256$" +:+ password)
             (Request "POST"
                (list_to_map [("username", "bob"); ("password", "secret")]))
             demo_server).2) !! "user_detail" = Some t'
        ∧ columns t' = columns (demo_table "user_detail")
        ∧ unique_in 1 (rows t').
Proof.
  apply (register_keeps_usernames_unique
           (λ password, "pbkdf2:sha256$" +:+ password)
           (Request "POST"
              (list_to_map [("username", "bob"); ("password", "secret")]))
           demo_server
           (register (λ password, "pbkdf2:sha256$" +:+ password)
              (Request "POST"
                 (list_to_map [("username", "bob"); ("password", "secret")]))
              demo_server).1
           _ (demo_table "user_detail") 1%nat).
  - by vm_compute.
  - by vm_compute.
  - intros j1 j2 r1 r2 H1 H2 _. destruct j1 as [|j1], j2 as [|j2]; done.
  - by destruct (register _ _ _).
Defined.

(** ** More on the goals *)

Lemma get_goal_data_run u s :
  accepting s = true →
  get_goal_data u s
  = (Return (match exec_select (committed s)
                     (Select Star "goals" ("user_detail_id", id u)
                             None None) with
             | Ok rs => rs
             | Fail _ => []
             end), s).
Proof.
  intros Hs. unfold get_goal_data.
  rewrite py_bind_run, get_db_connection_accepting by done.
  unfold try_finally, try_except_psycopg2, execute, exec.
  rewrite py_bind_run. simpl.
  by destruct (exec_select _ _).
Qed.

(** The query of [get_goal_data]: the rows of the user, as stored. *)
Lemma goal_query_run db t iu v :
  tables db !! "goals" = Some t →
  col_index t "user_detail_id" = Some iu →
  exec_select db (Select Star "goals" ("user_detail_id", v) None None)
  = Ok (filter (λ r, sql_eq (field iu r) v = true) (rows t)).
Proof.
  intros Ht Hiu. unfold exec_select, select_rows.
  cbn [sel_from sel_where sel_what sel_order sel_limit fst snd].
  rewrite (table_of_Some _ _ _ Ht), result_bind_Ok.
  rewrite (column_of_Some _ _ _ Hiu), result_bind_Ok.
  cbn [eval_projection order_by limit]. rewrite !result_bind_Ok.
  by rewrite list_fmap_id.
Qed.

Lemma filter_sql_eq i v (rs : list tuple) :
  v ≠ VNull →
  filter (λ r, sql_eq (field i r) v = true) rs
  = filter (λ r, field i r = v) rs.
Proof.
  intros Hnull. apply list_filter_iff. intros r. rewrite sql_eq_true.
  split; [by intros [? _]|]. intros Hr. split; congruence.
Qed.

Lemma filter_sql_eq_null i (rs : list tuple) :
  filter (λ r, sql_eq (field i r) VNull = true) rs = [].
Proof.
  apply filter_none, Forall_forall. intros r _.
  by destruct (field i r).
Qed.

(** Under the constraint, the rows with a given value are at most one. *)
Lemma unique_in_filter_length i rs v :
  unique_in i rs →
  (length (filter (λ r, sql_eq (field i r) v = true) rs) ≤ 1)%nat.
Proof.
  intros Huniq. destruct (decide (v = VNull)) as [->|Hnull].
  { rewrite filter_sql_eq_null. simpl. lia. }
  rewrite filter_sql_eq by done.
  destruct (filter _ rs) as [|r rs'] eqn:Hfilter; [simpl; lia|].
  assert (r ∈ filter (λ r, field i r = v) rs) as Hr
    by (rewrite Hfilter; apply list_elem_of_here).
  apply list_elem_of_filter in Hr as [Hv Hr].
  apply list_elem_of_lookup in Hr as [j Hj].
  rewrite (unique_in_filter i rs j r v) in Hfilter by done.
  injection Hfilter as <-. simpl. lia.
Qed.

Lemma filter_insert_same {A} (P : A → Prop) `{∀ x, Decision (P x)}
    (l : list A) j x y :
  l !! j = Some x → ¬ P x → ¬ P y → filter P (<[j := y]> l) = filter P l.
Proof.
  revert j. induction l as [|z l IH]; intros [|j] Hj Hx Hy; try done.
  - injection Hj as ->. simpl. by rewrite !filter_cons, !decide_False.
  - simpl. rewrite !filter_cons. by rewrite (IH j).
Qed.

(** The upsert leaves the rows with another value in the arbiter column as
    they are, and in their order. *)
Lemma upserted_others t iu cs new v :
  goals_table_ok t iu →
  "user_detail_id" ∉ cs →
  length new = length (columns t) →
  field iu new = v → v ≠ VNull →
  filter (λ r, field iu r ≠ v) (upserted t iu cs new)
  = filter (λ r, field iu r ≠ v) (rows t).
Proof.
  intros [Hcols Hiu Hunique Hlen Huniq] Hcs Hnew Hv Hnull. unfold upserted.
  destruct (list_find _ _) as [[j old]|] eqn:Hfind.
  - apply list_find_Some in Hfind as (Hold & Heq & _).
    assert (length old = length (columns t)) as Hold_len.
    { rewrite Forall_forall in Hlen.
      by apply Hlen, (list_elem_of_lookup_2 _ j). }
    apply sql_eq_true in Heq as [Heq _].
    apply (filter_insert_same _ _ j old); [done| |].
    + intros Hne. apply Hne. congruence.
    + intros Hne. apply Hne.
      rewrite (update_row_field_kept _ _ _ _ "user_detail_id") by done.
      congruence.
  - rewrite filter_app, filter_cons, decide_False by (intros Hne; by apply Hne).
    by rewrite filter_nil, app_nil_r.
Qed.



(** X10.  A POST to /goals touches the goals of its user only: on a reachable
    server with habits.goals in place, the other tables are as they were,
    and the goals rows of the other users are the same rows in the same
    order. *)
Theorem goals_leaves_other_users :
  ∀ (s : server) (u : user) (req : request) (t : table) (iu : nat),
    method req = "POST" →
    accepting s = true →
    id u ≠ VNull →
    tables (committed s) !! "goals" = Some t →
    goals_table_ok t iu →
    ∃ (s1 : server) (t1 : table),
      goals u req s
      = (Return (RenderTemplate "goals.html" [("user", CStr (username u))]),
         s1)
      ∧ tables (committed s1) = <["goals" := t1]> (tables (committed s))
      ∧ filter (λ r, field iu r ≠ id u) (rows t1)
        = filter (λ r, field iu r ≠ id u) (rows t).
Proof.
  intros s u req t iu Hpost Hs Hid Ht Hok.
  eexists _, _. split; [by apply (goals_post_run u req s t iu)|].
  split; [done|]. cbn [rows].
  apply upserted_others; try done.
  - unfold goals_set_columns. rewrite !not_elem_of_cons.
    split_and!; try done. apply not_elem_of_nil.
  - apply proposed_row_length.
  - apply (proposed_row_field _ _ _ "user_detail_id"); [|done].
    apply (goals_user_column _ _ Hok).
Qed.

(** On the demonstration database: user 2 submits goals; the row of user 1
    stays. *)
Lemma goals_leaves_other_users_witness :
  ∃ (s1 : server) (t1 : table),
    goals (User (VInt 2) (Some "bob"))
      (Request "POST" (list_to_map [("duration", "8"); ("quality", "5");
                                    ("intense", "6"); ("diet", "4")]))
      demo_server
    = (Return (RenderTemplate "goals.html" [("user", CStr (Some "bob"))]),
       s1)
    ∧ tables (committed s1)
      = <["goals" := t1]> (tables (committed demo_server))
    ∧ filter (λ r, field 5 r ≠ VInt 2) (rows t1)
      = filter (λ r, field 5 r ≠ VInt 2) (rows (demo_table "goals")).
Proof.
  apply (goals_leaves_other_users demo_server (User (VInt 2) (Some "bob")) _
           (demo_table "goals") 5%nat);
    [done|done|done|by vm_compute|apply demo_goals_table_ok].
Defined.

(** X11.  [get_goal_data] on a reachable server: without the goals table the
    query fails and the result is the empty list; with habits.goals in place
    it returns at most one row, a stored row of the current user. *)
Theorem get_goal_data_at_most_one :
  ∀ (s : server) (u : user),
    accepting s = true →
    (tables (committed s) !! "goals" = None →
     get_goal_data u s = (Return [], s))
    ∧ (∀ t iu,
         tables (committed s) !! "goals" = Some t →
         goals_table_ok t iu →
         ∃ rs, get_goal_data u s = (Return rs, s)
               ∧ (length rs ≤ 1)%nat
               ∧ ∀ r, r ∈ rs → r ∈ rows t ∧ field iu r = id u).
Proof.
  intros s u Hs. split.
  - intros Hnone. rewrite get_goal_data_run by done.
    unfold exec_select. cbn [sel_from].
    by rewrite (table_of_None _ _ Hnone).
  - intros t iu Ht [Hcols Hiu Hunique Hlen Huniq].
    eexists. split; [|split].
    + rewrite get_goal_data_run by done.
      by rewrite (goal_query_run _ t iu).
    + by apply unique_in_filter_length.
    + intros r [Heq Hr]%list_elem_of_filter. split; [done|].
      by apply sql_eq_true in Heq as [? _].
Qed.

(** On the demonstration database. *)
Lemma get_goal_data_at_most_one_witness :
  ∃ rs, get_goal_data ada demo_server = (Return rs, demo_server)
        ∧ (length rs ≤ 1)%nat.
Proof.
  destruct (get_goal_data_at_most_one demo_server ada eq_refl) as [_ Hone].
  destruct (Hone (demo_table "goals") 5%nat) as (rs & Hrun & Hlen & _);
    [by vm_compute|apply demo_goals_table_ok|].
  by exists rs.
Defined.

(** ** More on the feedback *)



(** The query of the listing on a table that has its columns. *)
Lemma select_rows_feedback t u lim i1 i2 i3 i4 ir i6 i7 k :
  col_index t "feedback_id" = Some i1 →
  col_index t "feedback_type" = Some i2 →
  col_index t "feedback_page" = Some i3 →
  col_index t "feedback_message" = Some i4 →
  col_index t "feedback_rating" = Some ir →
  col_index t "contact_email" = Some i6 →
  col_index t "created_at" = Some i7 →
  col_index t "user_detail_id" = Some k →
  select_rows t (feedback_query u lim)
  = fmap (M := list)
      (λ r, [field i1 r; field i2 r; field i3 r; field i4 r;
             coalesce (field ir r) (VInt 0); field i6 r; field i7 r])
    <$> limit (Some lim)
          (merge_sort (row_le Desc i7)
             (filter (λ r, sql_eq (field k r) (id u) = true) (rows t))).
Proof.
  intros H1 H2 H3 H4 Hir H6 H7 Hk.
  unfold select_rows, feedback_query, eval_projection, eval_exprs, eval_expr,
    order_by.
  cbn [sel_from sel_where sel_what sel_order sel_limit fst snd].
  rewrite (column_of_Some _ _ _ Hk), result_bind_Ok.
  rewrite (column_of_Some _ _ _ H1), (column_of_Some _ _ _ H2),
    (column_of_Some _ _ _ H3), (column_of_Some _ _ _ H4),
    (column_of_Some _ _ _ Hir), (column_of_Some _ _ _ H6),
    (column_of_Some _ _ _ H7), !result_bind_Ok.
  by destruct (limit _ _).
Qed.

Lemma StronglySorted_take {A} (R : relation A) (l : list A) n :
  StronglySorted R l → StronglySorted R (take n l).
Proof.
  intros Hl. rewrite <- (take_drop n l) in Hl.
  by apply StronglySorted_app_1_l in Hl.
Qed.

(** X14.  The feedback listing on a reachable server: when it returns, the
    limit is not negative, the rows are at most as many as the limit, they
    are ordered by their last field, [created_at], newest first, and the
    database is as it was; with a negative limit (and habits.feedback in
    place) it raises the server's error. *)
Theorem feedback_listing_bounded_ordered :
  ∀ (s : server) (u : user) (lim : Z),
    accepting s = true →
    (∀ rs s', _get_feedback_for_user u lim s = (Return rs, s') →
       s' = s
       ∧ 0 ≤ lim
       ∧ (length rs ≤ Z.to_nat lim)%nat
       ∧ StronglySorted (λ o1 o2, value_le (field 6 o2) (field 6 o1)) rs)
    ∧ (∀ t, tables (committed s) !! "feedback" = Some t →
            has_columns t feedback_listing_columns →
            lim < 0 →
            _get_feedback_for_user u lim s
            = (Raise (Psycopg2Error InvalidRowCount), s)).
Proof.
  intros s u lim Hs. split.
  - intros rs s'. rewrite _get_feedback_for_user_run by done.
    destruct (exec_select _ _) as [rs'|] eqn:Hrs; [|done].
    intros [= -> <-].
    apply exec_select_ordered_inv in Hrs
      as (t & k & i & proj & limited & Ht & Hk & Hi & Hproj & Hlim & ->).
    apply (eval_projection_feedback t u lim) in Hproj
      as (i1 & i2 & i3 & i4 & ir & i6 & i7 & H1 & H2 & H3 & H4 & Hir & H6
          & H7 & ->).
    assert (i7 = i) as -> by congruence.
    unfold limit in Hlim. destruct (Z.ltb_spec lim 0); [done|].
    injection Hlim as <-. split_and!; [done|done| |].
    + rewrite length_fmap, length_take. lia.
    + apply (StronglySorted_fmap _ (row_le Desc i)); [by intros r1 r2|].
      apply StronglySorted_take.
      apply (StronglySorted_merge_sort (row_le Desc i)).
  - intros t Ht Hcols Hneg. rewrite _get_feedback_for_user_run by done.
    unfold has_columns, feedback_listing_columns in Hcols.
    rewrite !Forall_cons in Hcols.
    destruct Hcols as ([i1 H1] & [i2 H2] & [i3 H3] & [i4 H4] & [ir Hir]
                       & [i6 H6] & [i7 H7] & [k Hk] & _).
    unfold exec_select. cbn [feedback_query sel_from].
    rewrite (table_of_Some _ _ _ Ht), result_bind_Ok.
    rewrite (select_rows_feedback t u lim i1 i2 i3 i4 ir i6 i7 k) by done.
    unfold limit. by destruct (Z.ltb_spec lim 0); [|lia].
Qed.

(** On the demonstration database, with the limit 1: the newest row only. *)
Lemma feedback_listing_bounded_ordered_witness :
  _get_feedback_for_user ada 1 demo_server
  = (Return [[VInt 2; VText "praise"; VText "sleep"; VText "nice"; VInt 5;
              VNull; VTime 101]], demo_server)
  ∧ (length [[VInt 2; VText "praise"; VText "sleep"; VText "nice"; VInt 5;
              VNull; VTime 101]] ≤ Z.to_nat 1)%nat
  ∧ _get_feedback_for_user ada (-1) demo_server
    = (Raise (Psycopg2Error InvalidRowCount), demo_server).
Proof.
  destruct (feedback_listing_bounded_ordered demo_server ada 1 eq_refl)
    as [Hreturns _].
  destruct (feedback_listing_bounded_ordered demo_server ada (-1) eq_refl)
    as [_ Hraises].
  assert (_get_feedback_for_user ada 1 demo_server
          = (Return [[VInt 2; VText "praise"; VText "sleep"; VText "nice";
                      VInt 5; VNull; VTime 101]], demo_server)) as Hrun
    by (by vm_compute).
  split_and!; [done| |].
  - by apply Hreturns in Hrun as (_ & _ & ? & _).
  - apply (Hraises (demo_table "feedback")); [by vm_compute| |lia].
    demo_has_columns.
Defined.



(** ** When the server cannot be reached *)



(** ** The chart of a habit beside its listing *)

Lemma value_le_antisym (a b : value) : value_le a b → value_le b a → a = b.
Proof.
  unfold value_le.
  destruct a as [|m|s|t], b as [|n|s'|t']; simpl; try done.
  - rewrite !Z.leb_le. intros. f_equal. lia.
  - intros H1 H2. f_equal. by apply String.leb_antisym.
  - rewrite !Z.leb_le. intros. f_equal. lia.
Qed.

Lemma StronglySorted_reverse {A} (R : relation A) (l : list A) :
  StronglySorted R l → StronglySorted (flip R) (reverse l).
Proof.
  induction 1 as [|x l Hl IH Hx]; [constructor|].
  rewrite reverse_cons. apply StronglySorted_app_2.
  - intros x1 x2 Hx1 ->%list_elem_of_singleton.
    rewrite elem_of_reverse in Hx1.
    rewrite Forall_forall in Hx. unfold flip. by apply Hx.
  - done.
  - repeat constructor.
Qed.

(** Rows with pairwise different keys are told apart by their key. *)
Lemma NoDup_fmap_inj_on {A B} (f : A → B) (l : list A) (x y : A) :
  NoDup (f <$> l) → x ∈ l → y ∈ l → f x = f y → x = y.
Proof.
  induction l as [|a l IH]; [by intros _ ?%elem_of_nil|].
  rewrite fmap_cons, NoDup_cons.
  intros [Ha Hl] [->|Hx]%elem_of_cons [->|Hy]%elem_of_cons Heq; try done.
  - destruct Ha. rewrite Heq. by apply list_elem_of_fmap_2.
  - destruct Ha. rewrite <- Heq. by apply list_elem_of_fmap_2.
  - by apply IH.
Qed.

(** Sorting rows that differ in the sort column, upwards, gives the reverse
    of sorting them downwards. *)
Lemma merge_sort_asc_reverse_desc (i : nat) (rs : list tuple) :
  NoDup (field i <$> rs) →
  merge_sort (row_le Asc i) rs = reverse (merge_sort (row_le Desc i) rs).
Proof.
  intros Hkeys. apply (StronglySorted_unique_strong (row_le Asc i)).
  - intros r1 r2 H1 H2 Hle Hge. rewrite elem_of_reverse in H2.
    rewrite merge_sort_Permutation in H1, H2.
    apply (NoDup_fmap_inj_on (field i) rs); [done..|].
    by apply value_le_antisym.
  - apply StronglySorted_merge_sort; apply _.
  - apply (StronglySorted_reverse (row_le Desc i)).
    apply StronglySorted_merge_sort; apply _.
  - by rewrite reverse_Permutation, !merge_sort_Permutation.
Qed.

(** X16.  The chart beside the listing, as the routes /sleep, /diet and
    /workout ask for them: for a habit table that has its date column, the
    value column and [user_detail_id], on a reachable server, [get_data]
    and [get_chart_data] (on the table's date column) both return, the
    chart has the (date, value) pair of every row listed and no other, and
    when the rows listed have pairwise different dates the chart is the
    listing's pairs in reverse: oldest first. *)
Theorem chart_is_listing_oldest_first :
  ∀ (s : server) (u : user) (table_name value_column : string) (t : table)
    (i j k : nat),
    accepting s = true →
    tables (committed s) !! table_name = Some t →
    col_index t (table_name +:+ "_date") = Some i →
    col_index t value_column = Some j →
    col_index t "user_detail_id" = Some k →
    ∃ rs pairs : list tuple,
      get_data u table_name s = (Return rs, s)
      ∧ get_chart_data u table_name (table_name +:+ "_date") value_column s
        = (Return pairs, s)
      ∧ pairs ≡ₚ (λ r, [field i r; field j r]) <$> rs
      ∧ (NoDup (field i <$> rs) →
         pairs = reverse ((λ r, [field i r; field j r]) <$> rs)).
Proof.
  intros s u name vc t i j k Hs Ht Hi Hj Hk.
  set (mine := filter (λ r, sql_eq (field k r) (id u) = true) (rows t)).
  exists (merge_sort (row_le Desc i) mine),
    ((λ r, [field i r; field j r]) <$> merge_sort (row_le Asc i) mine).
  split_and!.
  - rewrite get_data_run by done. unfold data_query.
    rewrite (exec_select_unlimited _ _ _ t _ _ k _ _ i (λ r, r)); try done.
    by rewrite list_fmap_id.
  - rewrite get_chart_data_run by done. unfold chart_query.
    rewrite (exec_select_unlimited _ _ _ t _ _ k _ _ i
               (λ r, [field i r; field j r])); try done.
    unfold eval_projection, eval_exprs, eval_expr.
    by rewrite (column_of_Some _ _ _ Hi), (column_of_Some _ _ _ Hj).
  - by rewrite !merge_sort_Permutation.
  - intros Hkeys. rewrite <- fmap_reverse. f_equal.
    apply merge_sort_asc_reverse_desc.
    eapply NoDup_Permutation_proper; [|exact Hkeys].
    by rewrite merge_sort_Permutation.
Qed.

(** On the demonstration database: the nights of user 1 and their chart. *)
Lemma chart_is_listing_oldest_first_witness :
  ∃ rs pairs : list tuple,
    get_data ada "sleep" demo_server = (Return rs, demo_server)
    ∧ get_chart_data ada "sleep" "sleep_date" "sleep_duration" demo_server
      = (Return pairs, demo_server)
    ∧ pairs ≡ₚ (λ r, [field 2 r; field 1 r]) <$> rs
    ∧ (NoDup (field 2 <$> rs) →
       pairs = reverse ((λ r, [field 2 r; field 1 r]) <$> rs)).
Proof.
  apply (chart_is_listing_oldest_first demo_server ada "sleep"
           "sleep_duration" (demo_table "sleep") 2 1 5);
    [reflexivity | by vm_compute | by vm_compute | by vm_compute
    | by vm_compute].
Defined.

(** ** Logging in *)

Lemma python_bind_run {A B} (m : python A) (f : A → python B) (w : app) :
  (m ≫= f) w = match m w with
               | (Done a, w') => f a w'
               | (Raised e, w') => (Raised e, w')
               end.
Proof. done. Qed.

Lemma lift_connection s sess :
  accepting s = true →
  lift get_db_connection (App s sess)
  = (Done (Connection (committed s)), App s sess).
Proof.
  intros Hs. unfold lift. cbn [db_server session_user_id].
  by rewrite get_db_connection_accepting.
Qed.

Lemma lift_connection_refused s sess :
  accepting s = false →
  lift get_db_connection (App s sess)
  = (Raised (Exn (Psycopg2Error OperationalError)), App s sess).
Proof.
  intros Hs. unfold lift. cbn [db_server session_user_id].
  by rewrite get_db_connection_refusing.
Qed.

Lemma lift_query db q s sess :
  lift (execute (Connection db) (Query q)) (App s sess)
  = match exec_select db q with
    | Ok rs => (Done (Connection db, rs), App s sess)
    | Fail e => (Raised (Exn (Psycopg2Error e)), App s sess)
    end.
Proof.
  unfold lift, execute, exec. cbn [db_server session_user_id working].
  by destruct (exec_select db q).
Qed.

(** SELECT * FROM habits.[name] WHERE [c] = [v]: the rows as stored. *)
Lemma select_star_run db name t c i v :
  tables db !! name = Some t →
  col_index t c = Some i →
  exec_select db (Select Star name (c, v) None None)
  = Ok (filter (λ r, sql_eq (field i r) v = true) (rows t)).
Proof.
  intros Ht Hi. unfold exec_select, select_rows.
  cbn [sel_from sel_where sel_what sel_order sel_limit fst snd].
  rewrite (table_of_Some _ _ _ Ht), result_bind_Ok.
  rewrite (column_of_Some _ _ _ Hi), result_bind_Ok.
  cbn [eval_projection order_by limit]. rewrite !result_bind_Ok.
  by rewrite list_fmap_id.
Qed.

(** The query of [get_username]. *)
Lemma username_query_run db t k iu v :
  tables db !! "user_detail" = Some t →
  col_index t "user_detail_id" = Some k →
  col_index t "user_detail_username" = Some iu →
  exec_select db
    (Select (Exprs [Col "user_detail_username"]) "user_detail"
            ("user_detail_id", v) None None)
  = Ok ((λ r, [field iu r])
          <$> filter (λ r, sql_eq (field k r) v = true) (rows t)).
Proof.
  intros Ht Hk Hiu. unfold exec_select, select_rows.
  cbn [sel_from sel_where sel_what sel_order sel_limit fst snd].
  rewrite (table_of_Some _ _ _ Ht), result_bind_Ok.
  rewrite (column_of_Some _ _ _ Hk), result_bind_Ok.
  unfold eval_projection, eval_exprs, eval_expr.
  by rewrite (column_of_Some _ _ _ Hiu), !result_bind_Ok.
Qed.

(** [get_username] returns, whatever happens, and leaves everything as it
    was. *)
Lemma get_username_returns v w :
  ∃ name, get_username v w = (Done name, w).
Proof.
  destruct w as [s sess]. unfold get_username, try_except_exception.
  rewrite python_bind_run.
  destruct (accepting s) eqn:Hs.
  - rewrite lift_connection by done. rewrite python_bind_run, lift_query.
    destruct (exec_select _ _) as [rs|e]; [|by eexists].
    rewrite python_bind_run. unfold subscript, fetchone.
    destruct (head rs) as [r|]; [|by eexists].
    destruct (r !! 0%nat) as [name|]; by eexists.
  - rewrite lift_connection_refused by done. by eexists.
Qed.

Lemma get_username_run v s sess t k iu :
  accepting s = true →
  tables (committed s) !! "user_detail" = Some t →
  col_index t "user_detail_id" = Some k →
  col_index t "user_detail_username" = Some iu →
  get_username v (App s sess)
  = (Done (match filter (λ r, sql_eq (field k r) v = true) (rows t) with
           | r :: _ => field iu r
           | [] => VNull
           end), App s sess).
Proof.
  intros Hs Ht Hk Hiu. unfold get_username, try_except_exception.
  rewrite python_bind_run, lift_connection by done.
  rewrite python_bind_run, lift_query.
  rewrite (username_query_run _ _ _ _ _ Ht Hk Hiu).
  rewrite python_bind_run.
  by destruct (filter _ (rows t)) as [|r rs].
Qed.

Lemma lift_close conn s sess :
  lift (close conn) (App s sess) = (Done (), App s sess).
Proof. done. Qed.

Lemma User__init___returns v w :
  ∃ name, User__init__ v w = (Done (UserObject v name), w).
Proof.
  destruct (get_username_returns v w) as [name Hname].
  exists name. unfold User__init__. by rewrite python_bind_run, Hname.
Qed.

(** A POST to /login on a reachable server whose user table has the
    user-name column: what the first row found decides. *)
Lemma login_post_run (check_password_hash : value → option string → raised bool)
    req s sess t iu :
  method req = "POST" →
  accepting s = true →
  tables (committed s) !! "user_detail" = Some t →
  col_index t "user_detail_username" = Some iu →
  login check_password_hash req (App s sess)
  = match filter (λ r, sql_eq (field iu r)
                         (param (form_get req "username")) = true)
                 (rows t) with
    | r :: _ =>
        match r !! 0%nat, r !! 2%nat with
        | Some id, Some pwhash =>
            match check_password_hash pwhash (form_get req "password") with
            | Done true => (Done (Redirect "/"), App s (Some id))
            | Done false =>
                (Done (RenderTemplate "login.html"
                         [("error",
                           CStr (Some "Incorrect username or password"))]),
                 App s sess)
            | Raised e => (Raised e, App s sess)
            end
        | Some id, None => (Raised IndexError, App s sess)
        | None, _ =>
            (Done (RenderTemplate "login.html"
                     [("error",
                       CStr (Some "Incorrect username or password"))]),
             App s sess)
        end
    | [] =>
        (Done (RenderTemplate "login.html"
                 [("error", CStr (Some "Incorrect username or password"))]),
         App s sess)
    end.
Proof.
  intros Hpost Hs Ht Hiu. unfold login.
  rewrite bool_decide_eq_true_2 by done.
  rewrite python_bind_run, lift_connection by done.
  rewrite python_bind_run, lift_query.
  rewrite (select_star_run _ _ _ _ _ _ Ht Hiu).
  rewrite python_bind_run, lift_close.
  destruct (filter _ (rows t)) as [|[|id fields] rest]; [done..|].
  rewrite python_bind_run. cbn [fetchone head truthy].
  rewrite python_bind_run. unfold subscript at 1.
  change ((id :: fields) !! 0%nat) with (Some id).
  cbv beta iota.
  destruct ((id :: fields) !! 2%nat) as [pwhash|]; [|done].
  unfold mret at 1, python_ret at 1, of_raised.
  destruct (check_password_hash pwhash _) as [[|]|e]; [|done..].
  rewrite python_bind_run. unfold subscript. cbn [lookup list_lookup].
  unfold mret at 1, python_ret at 1.
  destruct (User__init___returns id (App s sess)) as [name Hname].
  by rewrite python_bind_run, Hname.
Qed.

(** A column the INSERT does not name gets its default. *)
Lemma proposed_row_default t db vs i col :
  columns t !! i = Some col →
  assigned (col_name col) vs = None →
  field i (proposed_row t db vs) = default_value t db (col_default col).
Proof.
  intros Hcol Hnone. unfold field, proposed_row.
  apply list_lookup_total_correct.
  rewrite list_lookup_fmap, Hcol. simpl. by rewrite Hnone.
Qed.

(** [load_user] on a reachable server whose user table has its key in the
    first column. *)
Lemma load_user_run v s sess t iu :
  accepting s = true →
  tables (committed s) !! "user_detail" = Some t →
  col_index t "user_detail_id" = Some 0%nat →
  col_index t "user_detail_username" = Some iu →
  load_user v (App s sess)
  = (Done (match filter (λ r, sql_eq (field 0 r) v = true) (rows t) with
           | r :: _ => Some (UserObject v (field iu r))
           | [] => None
           end), App s sess).
Proof.
  intros Hs Ht Hk Hiu. unfold load_user.
  rewrite python_bind_run, lift_connection by done.
  rewrite python_bind_run, lift_query.
  rewrite (select_star_run _ _ _ _ _ _ Ht Hk).
  rewrite python_bind_run, lift_close.
  destruct (filter _ (rows t)) as [|r rest] eqn:Hfound; [done|].
  assert (sql_eq (field 0 r) v = true) as Hr.
  { assert (r ∈ filter (λ r, sql_eq (field 0 r) v = true) (rows t)) as Hin
      by (rewrite Hfound; left).
    by apply list_elem_of_filter in Hin as [Hin _]. }
  apply sql_eq_true in Hr as [Hr Hnull].
  destruct r as [|id fields]; [done|].
  unfold field in Hr. cbn in Hr. subst id.
  cbn [fetchone head truthy]. rewrite python_bind_run.
  unfold subscript. cbn [lookup list_lookup].
  unfold mret at 1, python_ret at 1.
  rewrite python_bind_run. unfold User__init__.
  rewrite python_bind_run.
  rewrite (get_username_run _ _ _ _ _ _ Hs Ht Hk Hiu), Hfound.
  done.
Qed.

Lemma filter_text_eq i name (rs : list tuple) :
  filter (λ r, sql_eq (field i r) (VText name) = true) rs
  = filter (λ r, field i r = VText name) rs.
Proof. by apply filter_sql_eq. Qed.

(** X17.  A wrong password is answered like an unknown user.  A POST to
    /login on a reachable server (user table with its user-name column)
    renders login.html with "Incorrect username or password", and leaves
    the database and the session as they were, in each of these cases: the
    form has no user name; no stored user has the name; the first stored
    user with the name has a password hash (third field) that
    [check_password_hash] rejects for the password of the form. *)
Theorem login_wrong_password_like_unknown_user :
  ∀ (check_password_hash : value → option string → raised bool) (s : server)
    (sess : option value) (req : request) (t : table) (iu : nat),
    method req = "POST" →
    accepting s = true →
    tables (committed s) !! "user_detail" = Some t →
    col_index t "user_detail_username" = Some iu →
    (form_get req "username" = None →
     login check_password_hash req (App s sess)
     = (Done (RenderTemplate "login.html"
                [("error", CStr (Some "Incorrect username or password"))]),
        App s sess))
    ∧ (∀ name,
         form_get req "username" = Some name →
         Forall (λ r, field iu r ≠ VText name) (rows t) →
         login check_password_hash req (App s sess)
         = (Done (RenderTemplate "login.html"
                    [("error",
                      CStr (Some "Incorrect username or password"))]),
            App s sess))
    ∧ (∀ name r rest pwhash,
         form_get req "username" = Some name →
         filter (λ r, field iu r = VText name) (rows t) = r :: rest →
         r !! 2%nat = Some pwhash →
         check_password_hash pwhash (form_get req "password") = Done false →
         login check_password_hash req (App s sess)
         = (Done (RenderTemplate "login.html"
                    [("error",
                      CStr (Some "Incorrect username or password"))]),
            App s sess)).
Proof.
  intros check s sess req t iu Hpost Hs Ht Hiu.
  rewrite (login_post_run check req s sess t iu Hpost Hs Ht Hiu).
  split_and!.
  - intros ->. cbn [param from_option]. by rewrite filter_sql_eq_null.
  - intros name -> Hnone. cbn [param from_option].
    rewrite filter_text_eq, filter_none; [done|].
    eapply Forall_impl; [exact Hnone|]. by intros r Hr.
  - intros name r rest pwhash -> Hfound Hpw Hcheck. cbn [param from_option].
    rewrite filter_text_eq, Hfound, Hpw.
    destruct (r !! 0%nat); [|done]. by rewrite Hcheck.
Qed.

(** On the demonstration database: nobody, "bob", and "ada" with a wrong
    password. *)
Lemma login_wrong_password_like_unknown_user_witness :
  login demo_check_password_hash
        (Request "POST" {["password" := "ada"]}) (App demo_server None)
  = (Done incorrect_page, App demo_server None)
  ∧ login demo_check_password_hash
          (Request "POST" (<["username" := "bob"]> {["password" := "ada"]}))
          (App demo_server None)
    = (Done incorrect_page, App demo_server None)
  ∧ login demo_check_password_hash
          (Request "POST" (<["username" := "ada"]> {["password" := "bob"]}))
          (App demo_server None)
    = (Done incorrect_page, App demo_server None).
Proof.
  split_and!.
  - refine (proj1 (login_wrong_password_like_unknown_user
                     demo_check_password_hash demo_server None
                     (Request "POST" {["password" := "ada"]})
                     (demo_table "user_detail") 1 eq_refl eq_refl _ _) _);
      by vm_compute.
  - refine (proj1 (proj2 (login_wrong_password_like_unknown_user
                            demo_check_password_hash demo_server None
                            (Request "POST" (<["username" := "bob"]>
                                               {["password" := "ada"]}))
                            (demo_table "user_detail") 1
                            eq_refl eq_refl _ _)) "bob" _ _);
      [by vm_compute..|].
    repeat constructor. by vm_compute.
  - refine (proj2 (proj2 (login_wrong_password_like_unknown_user
                            demo_check_password_hash demo_server None
                            (Request "POST" (<["username" := "ada"]>
                                               {["password" := "bob"]}))
                            (demo_table "user_detail") 1
                            eq_refl eq_refl _ _)) "ada"
                  [VInt 1; VText "ada"; VText "pbkdf2:sha256$ada"] []
                  (VText "pbkdf2:sha256$ada") _ _ _ _); by vm_compute.
Defined.

(** X18.  Who gets in.  A POST to /login on a reachable server (user table
    with its user-name column) answers with the redirect to / exactly when
    the form names a stored user whose password hash, the third field of
    the first row with that name, [check_password_hash] accepts for the
    password of the form; the session then holds the first field of that
    row, and the database is as it was. *)
Theorem login_redirects_iff_password_accepted :
  ∀ (check_password_hash : value → option string → raised bool) (s : server)
    (sess : option value) (req : request) (t : table) (iu : nat),
    method req = "POST" →
    accepting s = true →
    tables (committed s) !! "user_detail" = Some t →
    col_index t "user_detail_username" = Some iu →
    (∀ name r rest pwhash,
       form_get req "username" = Some name →
       filter (λ r, field iu r = VText name) (rows t) = r :: rest →
       r !! 2%nat = Some pwhash →
       check_password_hash pwhash (form_get req "password") = Done true →
       login check_password_hash req (App s sess)
       = (Done (Redirect "/"), App s (Some (field 0 r))))
    ∧ (∀ w',
         login check_password_hash req (App s sess)
         = (Done (Redirect "/"), w') →
         ∃ name r rest pwhash,
           form_get req "username" = Some name
           ∧ filter (λ r, field iu r = VText name) (rows t) = r :: rest
           ∧ r !! 2%nat = Some pwhash
           ∧ check_password_hash pwhash (form_get req "password") = Done true
           ∧ w' = App s (Some (field 0 r))).
Proof.
  intros check s sess req t iu Hpost Hs Ht Hiu.
  rewrite (login_post_run check req s sess t iu Hpost Hs Ht Hiu).
  split.
  - intros name r rest pwhash -> Hfound Hpw Hcheck. cbn [param from_option].
    rewrite filter_text_eq, Hfound, Hpw.
    destruct (r !! 0%nat) as [id|] eqn:Hid.
    + rewrite Hcheck. unfold field.
      by rewrite (list_lookup_total_correct _ _ _ Hid).
    + destruct r; done.
  - intros w'. destruct (form_get req "username") as [name|].
    + cbn [param from_option]. rewrite filter_text_eq.
      destruct (filter _ (rows t)) as [|r rest] eqn:Hfound; [done|].
      destruct (r !! 0%nat) as [id|] eqn:Hid; [|done].
      destruct (r !! 2%nat) as [pwhash|] eqn:Hpw; [|done].
      destruct (check pwhash _) as [[|]|e] eqn:Hcheck; [|done..].
      intros [= <-]. exists name, r, rest, pwhash. split_and!; try done.
      unfold field. by rewrite (list_lookup_total_correct _ _ _ Hid).
    + cbn [param from_option]. by rewrite filter_sql_eq_null.
Qed.

(** On the demonstration database: "ada" logs in. *)
Lemma login_redirects_iff_password_accepted_witness :
  login demo_check_password_hash
        (Request "POST" (<["username" := "ada"]> {["password" := "ada"]}))
        (App demo_server None)
  = (Done (Redirect "/"), App demo_server (Some (VInt 1))).
Proof.
  refine (proj1 (login_redirects_iff_password_accepted
                   demo_check_password_hash demo_server None
                   (Request "POST" (<["username" := "ada"]>
                                      {["password" := "ada"]}))
                   (demo_table "user_detail") 1 eq_refl eq_refl _ _)
                "ada" [VInt 1; VText "ada"; VText "pbkdf2:sha256$ada"] []
                (VText "pbkdf2:sha256$ada") _ _ _ _); by vm_compute.
Defined.

(** The rows with a value no stored row has, after a row with it is
    appended. *)
Lemma filter_snoc_fresh i v (rs : list tuple) (new : tuple) :
  Forall (λ r, field i r ≠ v) rs → field i new = v → v ≠ VNull →
  filter (λ r, sql_eq (field i r) v = true) (rs ++ [new]) = [new].
Proof.
  intros Hfresh Hnew Hnull. rewrite filter_sql_eq by done.
  rewrite filter_app, filter_none by done.
  by rewrite filter_cons, decide_True.
Qed.

(** X19.  A user who registered can log in.  On a reachable server whose
    user table has its serial key in the first column and the password in
    the third, unique constraints on the key and the name at most, a key
    sequence ahead of the stored keys and no user of the name: after a POST
    to /register, a POST to /login with the same name and password, given
    that [check_password_hash] accepts a password for the hash
    [generate_password_hash] made of it, redirects to /; the session holds
    the key of the new row, and [load_user] of that key is the user with
    the key and the name registered. *)
Theorem register_then_login :
  ∀ (generate_password_hash : string → string)
    (check_password_hash : value → option string → raised bool)
    (s : server) (sess : option value) (req1 req2 : request)
    (name password : string) (t : table) (iu : nat),
    method req1 = "POST" →
    form req1 !! "username" = Some name →
    form req1 !! "password" = Some password →
    method req2 = "POST" →
    form_get req2 "username" = Some name →
    form_get req2 "password" = Some password →
    accepting s = true →
    tables (committed s) !! "user_detail" = Some t →
    col_index t "user_detail_id" = Some 0%nat →
    col_index t "user_detail_username" = Some iu →
    col_index t "user_detail_password" = Some 2%nat →
    col_default <$> columns t !! 0%nat = Some DSerial →
    (∀ j col, columns t !! j = Some col → col_unique col = true →
              j = 0%nat ∨ j = iu) →
    Forall (λ r, field 0 r ≠ VInt (next_key t)) (rows t) →
    Forall (λ r, field iu r ≠ VText name) (rows t) →
    check_password_hash (VText (generate_password_hash password))
                        (Some password) = Done true →
    ∃ s1 : server,
      register generate_password_hash req1 s = (Return (Redirect "/login"), s1)
      ∧ login check_password_hash req2 (App s1 sess)
        = (Done (Redirect "/"), App s1 (Some (VInt (next_key t))))
      ∧ load_user (VInt (next_key t)) (App s1 (Some (VInt (next_key t))))
        = (Done (Some (UserObject (VInt (next_key t)) (VText name))),
           App s1 (Some (VInt (next_key t)))).
Proof.
  intros gen check s sess req1 req2 name password t iu Hpost1 Hname1 Hpw1
    Hpost2 Hname2 Hpw2 Hs Ht Hk Hiu Hip Hserial Hunique Hkeys Hnames Hcheck.
  set (vs := [("user_detail_username", VText name);
              ("user_detail_password", VText (gen password))]).
  set (new := proposed_row t (committed s) vs).
  set (t1 := Table (columns t) (rows t ++ [new]) (advance_key t)).
  assert (field iu new = VText name) as Hnew_name
    by by apply (proposed_row_field t (committed s) vs
                   "user_detail_username").
  assert (field 2 new = VText (gen password)) as Hnew_pw
    by by apply (proposed_row_field t (committed s) vs
                   "user_detail_password").
  assert (field 0 new = VInt (next_key t)) as Hnew_key.
  { destruct (col_index_name _ _ _ Hk) as (col & Hcol & Hcolname).
    rewrite Hcol in Hserial. injection Hserial as Hserial.
    unfold new. rewrite (proposed_row_default _ _ _ _ _ Hcol).
    - by rewrite Hserial.
    - by rewrite Hcolname. }
  assert (2 < length new)%nat as Hlen.
  { unfold new. rewrite proposed_row_length.
    destruct (col_index_name _ _ _ Hip) as (col & Hcol & _).
    by eapply lookup_lt_Some. }
  set (s1 := Server true
                (Database (<["user_detail" := t1]> (tables (committed s)))
                          (now (committed s)))).
  exists s1.
  assert (tables (committed s1) !! "user_detail" = Some t1) as Ht1
    by apply lookup_insert_eq.
  assert (accepting s1 = true) as Hs1 by done.
  split_and!.
  - rewrite (register_post_run gen req1 s name password t iu) by done.
    rewrite filter_text_eq, filter_none by done.
    fold vs. rewrite (exec_insert_plain _ _ _ t Ht); [done| |].
    + unfold has_columns, vs. cbn [fmap list_fmap fst].
      repeat (apply Forall_cons_2; [by eexists|]). apply Forall_nil_2.
    + apply violated_None. intros j col Hcol Hu. fold new.
      destruct (Hunique j col Hcol Hu) as [->| ->].
      * rewrite Hnew_key. eapply Forall_impl; [exact Hkeys|].
        intros r Hr Heq. simpl in *. by apply sql_eq_true in Heq as [Heq _].
      * rewrite Hnew_name. eapply Forall_impl; [exact Hnames|].
        intros r Hr Heq. simpl in *. by apply sql_eq_true in Heq as [Heq _].
  - rewrite (login_post_run check req2 s1 sess t1 iu Hpost2 Hs1 Ht1 Hiu).
    rewrite Hname2, Hpw2. cbn [param from_option rows t1].
    rewrite (filter_snoc_fresh iu (VText name)) by done.
    rewrite !field_lookup by lia. by rewrite Hnew_key, Hnew_pw, Hcheck.
  - rewrite (load_user_run _ s1 _ t1 iu Hs1 Ht1 Hk Hiu).
    cbn [rows t1]. rewrite (filter_snoc_fresh 0 (VInt (next_key t))) by done.
    by rewrite Hnew_name.
Qed.

(** On the demonstration database: "bob" registers and logs in. *)
Lemma register_then_login_witness :
  ∃ s1 : server,
    register demo_generate_password_hash
      (Request "POST" (<["username" := "bob"]> {["password" := "secret"]}))
      demo_server
    = (Return (Redirect "/login"), s1)
    ∧ login demo_check_password_hash
        (Request "POST" (<["username" := "bob"]> {["password" := "secret"]}))
        (App s1 None)
      = (Done (Redirect "/"), App s1 (Some (VInt 10)))
    ∧ load_user (VInt 10) (App s1 (Some (VInt 10)))
      = (Done (Some (UserObject (VInt 10) (VText "bob"))),
         App s1 (Some (VInt 10))).
Proof.
  apply (register_then_login demo_generate_password_hash
           demo_check_password_hash demo_server None
           (Request "POST" (<["username" := "bob"]> {["password" := "secret"]}))
           (Request "POST" (<["username" := "bob"]> {["password" := "secret"]}))
           "bob" "secret" (demo_table "user_detail") 1);
    try (by vm_compute).
  - intros j col Hcol Hu.
    destruct j as [|[|[|j]]]; vm_compute in Hcol; [| | |done];
      injection Hcol as <-; done.
  - repeat constructor. by vm_compute.
  - repeat constructor. by vm_compute.
Defined.

(** X20.  [User.get_username] never raises and changes nothing: its result
    is [None] when the server cannot be reached, when the user table or
    one of the two columns is missing, and when no stored row has the id;
    else it is the user name of the first stored row with the id. *)
Theorem get_username_none_on_error :
  ∀ (v : value) (s : server) (sess : option value),
    (∃ name, get_username v (App s sess) = (Done name, App s sess))
    ∧ (accepting s = false →
       get_username v (App s sess) = (Done VNull, App s sess))
    ∧ (tables (committed s) !! "user_detail" = None →
       get_username v (App s sess) = (Done VNull, App s sess))
    ∧ (∀ t, tables (committed s) !! "user_detail" = Some t →
            col_index t "user_detail_id" = None
            ∨ col_index t "user_detail_username" = None →
            get_username v (App s sess) = (Done VNull, App s sess))
    ∧ (∀ t k iu,
         accepting s = true →
         tables (committed s) !! "user_detail" = Some t →
         col_index t "user_detail_id" = Some k →
         col_index t "user_detail_username" = Some iu →
         (Forall (λ r, field k r ≠ v) (rows t) →
          get_username v (App s sess) = (Done VNull, App s sess))
         ∧ (∀ r rest,
              v ≠ VNull →
              filter (λ r, field k r = v) (rows t) = r :: rest →
              get_username v (App s sess) = (Done (field iu r), App s sess))).
Proof.
  intros v s sess. split_and!.
  - apply get_username_returns.
  - intros Hs. unfold get_username, try_except_exception.
    by rewrite python_bind_run, lift_connection_refused.
  - intros Ht. unfold get_username, try_except_exception.
    rewrite python_bind_run. destruct (accepting s) eqn:Hs.
    + rewrite lift_connection by done. rewrite python_bind_run, lift_query.
      unfold exec_select. cbn [sel_from].
      by rewrite (table_of_None _ _ Ht).
    + by rewrite lift_connection_refused.
  - intros t Ht Hcol. unfold get_username, try_except_exception.
    rewrite python_bind_run. destruct (accepting s) eqn:Hs.
    + rewrite lift_connection by done. rewrite python_bind_run, lift_query.
      unfold exec_select, select_rows.
      cbn [sel_from sel_where sel_what sel_order sel_limit fst snd].
      rewrite (table_of_Some _ _ _ Ht), result_bind_Ok.
      destruct (col_index t "user_detail_id") as [k|] eqn:Hk.
      * destruct Hcol as [|Hiu]; [done|].
        rewrite (column_of_Some _ _ _ Hk), result_bind_Ok.
        unfold eval_projection, eval_exprs, eval_expr.
        by rewrite (column_of_None _ _ Hiu).
      * by rewrite (column_of_None _ _ Hk).
    + by rewrite lift_connection_refused.
  - intros t k iu Hs Ht Hk Hiu.
    rewrite (get_username_run v s sess t k iu Hs Ht Hk Hiu). split.
    + intros Hnone. rewrite filter_none; [done|].
      eapply Forall_impl; [exact Hnone|]. intros r Hr Heq. simpl in *.
      by apply sql_eq_true in Heq as [Heq _].
    + intros r rest Hnull Hfound. by rewrite filter_sql_eq, Hfound.
Qed.

(** X21.  [load_user] on a user table with its key in the first column: on
    a reachable server it returns [None] when no stored row has the id, and
    else the user with that id and the user name of the first stored row
    with it, leaving everything as it was; it has no [try], and raises
    psycopg2's [OperationalError] when the server cannot be reached. *)
Theorem load_user_finds_stored_id :
  ∀ (v : value) (s : server) (sess : option value) (t : table) (iu : nat),
    tables (committed s) !! "user_detail" = Some t →
    col_index t "user_detail_id" = Some 0%nat →
    col_index t "user_detail_username" = Some iu →
    (accepting s = false →
     load_user v (App s sess)
     = (Raised (Exn (Psycopg2Error OperationalError)), App s sess))
    ∧ (accepting s = true →
       Forall (λ r, field 0 r ≠ v) (rows t) →
       load_user v (App s sess) = (Done None, App s sess))
    ∧ (∀ r rest,
         accepting s = true →
         v ≠ VNull →
         filter (λ r, field 0 r = v) (rows t) = r :: rest →
         load_user v (App s sess)
         = (Done (Some (UserObject v (field iu r))), App s sess)).
Proof.
  intros v s sess t iu Ht Hk Hiu. split_and!.
  - intros Hs. unfold load_user.
    by rewrite python_bind_run, lift_connection_refused.
  - intros Hs Hnone. rewrite (load_user_run v s sess t iu Hs Ht Hk Hiu).
    rewrite filter_none; [done|].
    eapply Forall_impl; [exact Hnone|]. intros r Hr Heq. simpl in *.
    by apply sql_eq_true in Heq as [Heq _].
  - intros r rest Hs Hnull Hfound.
    rewrite (load_user_run v s sess t iu Hs Ht Hk Hiu).
    by rewrite filter_sql_eq, Hfound.
Qed.

(** On the demonstration database: user 1 is "ada", user 2 is nobody. *)
Lemma load_user_finds_stored_id_witness :
  load_user (VInt 1) (App demo_server None)
  = (Done (Some (UserObject (VInt 1) (VText "ada"))), App demo_server None)
  ∧ load_user (VInt 2) (App demo_server None)
    = (Done None, App demo_server None).
Proof.
  destruct (load_user_finds_stored_id (VInt 1) demo_server None
              (demo_table "user_detail") 1)
    as (_ & _ & Hfound); [by vm_compute..|].
  destruct (load_user_finds_stored_id (VInt 2) demo_server None
              (demo_table "user_detail") 1)
    as (_ & Hnone & _); [by vm_compute..|].
  split.
  - by apply (Hfound [VInt 1; VText "ada"; VText "pbkdf2:sha256$ada"] []).
  - apply Hnone; [done|]. repeat constructor. by vm_compute.
Defined.

